(** * Golden Digital Gold: the client-side ledger of [src/index.tsx] and
      the service worker of [src/sw.js]

    A shallow embedding of the ledger handlers of the [App] component, of
    the validation code of the modals that call them and of the event
    handlers of the service worker, followed by the properties of the
    specification that concern them.

    Modelling conventions.
    - The ledger is embedded twice. In the first embedding a JavaScript
      [number] holding an amount (grams, ETB, a price) is a rational [Q] and
      the result of [parseFloat] an [option Q], [None] standing for [NaN];
      it serves the properties that no rounding decides: which records are
      stored, which fields change, which requests are turned down, the
      order of the list. Where a statement names a sum, a difference or a
      product there, it names the value that the handler computes by that
      operation. In the second embedding, [Binary64], a [number] is an IEEE
      754 binary64 value and every operation and comparison rounds and
      compares as in the source; the properties that depend on the
      arithmetic of transfers and loans are stated there.
    - A [date] string is represented by its instant in milliseconds since
      the epoch, the value [new Date(date).getTime()] that the comparator of
      the source reads; [Date.now()] and [new Date()] are inputs of the
      handler that reads the clock, one argument per read.
    - [Record<string, User>] is an association list in insertion order, the
      order in which [Object.values] enumerates string keys.
    - A handler that dereferences [undefined] throws before any state setter
      runs; this is the result [Threw] and leaves the state as it was.
    - A setter of [useLocalStorage] applies its updater to the value of the
      rendering that created it; the handlers run in the rendering of the
      click, except the timer of a purchase, which runs two seconds later
      with the closure of the click ([App.purchaseTimer]).
    - Toasts, the open modal and the selected view are presentation state and
      are not part of the ledger state. *)

From Stdlib Require Import List String Ascii Bool ZArith QArith Qminmax.
From Stdlib Require Import Lia Lqa Permutation Sorted DecimalString.
From Stdlib Require Floats.
Import ListNotations.

Local Open Scope string_scope.
Local Open Scope Q_scope.

(** ** Constants (index.tsx, lines 10-13) *)

Definition BASE_GOLD_PRICE_ETB : Q := 7950.25.
Definition LOAN_TO_VALUE_RATIO : Q := 0.5.
Definition LOAN_COMMISSION_RATE : Q := 0.05.

(** ** Data model (index.tsx, lines 23-46) *)

Inductive TxType :=
| conversion | transfer_in | transfer_out | withdrawal
| loan | guarantee_provided | loan_repayment | referral_bonus.

Inductive Status := completed | pending | failed.

Inductive Role := user | admin.

Inductive Action := approve | reject.

Definition TxType_eqb (a b : TxType) : bool :=
  match a, b with
  | conversion, conversion | transfer_in, transfer_in
  | transfer_out, transfer_out | withdrawal, withdrawal
  | loan, loan | guarantee_provided, guarantee_provided
  | loan_repayment, loan_repayment | referral_bonus, referral_bonus => true
  | _, _ => false
  end.

Definition Status_eqb (a b : Status) : bool :=
  match a, b with
  | completed, completed | pending, pending | failed, failed => true
  | _, _ => false
  end.

Definition Role_eqb (a b : Role) : bool :=
  match a, b with
  | user, user | admin, admin => true
  | _, _ => false
  end.

Module Transaction.
Record t := mk {
    id : string;
    date : Z;
    type : TxType;
    amountGrams : Q;
    amountETB : option Q;
    from : option string;
    to : option string;
    status : Status;
    userId : string
  }.

  (** [{ ...t, status: s }] *)
Definition with_status (x : t) (s : Status) : t :=
    mk (id x) (date x) (type x) (amountGrams x) (amountETB x)
       (from x) (to x) s (userId x).
End Transaction.

Module User.
Record t := mk {
    id : string;
    name : string;
    phone : string;
    email : string;
    role : Role;
    goldBalance : Q;
    etbBalance : Q;
    guaranteedGrams : Q;
    referralCode : string;
    joinDate : string
  }.

  (** [{ ...u, goldBalance: g }] *)
Definition with_goldBalance (u : t) (g : Q) : t :=
    mk (id u) (name u) (phone u) (email u) (role u) g (etbBalance u)
       (guaranteedGrams u) (referralCode u) (joinDate u).

  (** [{ ...u, goldBalance: g, etbBalance: e }] *)
Definition with_balances (u : t) (g e : Q) : t :=
    mk (id u) (name u) (phone u) (email u) (role u) g e
       (guaranteedGrams u) (referralCode u) (joinDate u).
End User.

(** ** [Record<string, User>] *)

Module Users.
Definition t := list (string * User.t).

  (** [users[k]], [None] for [undefined]. *)
Fixpoint get (k : string) (m : t) : option User.t :=
    match m with
    | [] => None
    | (k', v) :: m' => if String.eqb k k' then Some v else get k m'
    end.

  (** [m[k] = v] on a copy of [m]: an existing key keeps its place, a new
      key goes last. *)
Fixpoint assign (k : string) (v : User.t) (m : t) : t :=
    match m with
    | [] => [(k, v)]
    | (k', v') :: m' =>
        if String.eqb k k' then (k', v) :: m' else (k', v') :: assign k v m'
    end.

  (** [Object.values(m)] *)
Definition values (m : t) : list User.t := map snd m.

Definition keys (m : t) : list string := map fst m.
End Users.

(** ** [Array.prototype.sort] with the comparator of the source

    The sort of the language is stable; for a comparator that is a total
    preorder its result is the one of this insertion sort. The comparator
    [(a, b) => new Date(b.date).getTime() - new Date(a.date).getTime()]
    is [byDateDesc]; a positive value puts [b] before [a]. *)

Definition byDateDesc (a b : Transaction.t) : Z :=
  (Transaction.date b - Transaction.date a)%Z.

Fixpoint insert (x : Transaction.t) (l : list Transaction.t) : list Transaction.t :=
  match l with
  | [] => [x]
  | y :: l' => if (0 <? byDateDesc x y)%Z then y :: insert x l' else x :: y :: l'
  end.

Definition sort (l : list Transaction.t) : list Transaction.t :=
  fold_right insert [] l.

(** ** Seeded data (index.tsx, lines 54-68) *)

Definition usr_1 : User.t :=
  User.mk "usr_1" "Abebe Bikila" "+251912345678" "abebe@example.com" user
          5.75 12000 0.5 "GOLDENAB24" "2023-08-15".
Definition usr_2 : User.t :=
  User.mk "usr_2" "Fatuma Roba" "+251923456789" "fatuma@example.com" user
          12.25 5500 0 "FATUMA88" "2023-01-20".
Definition usr_3 : User.t :=
  User.mk "usr_3" "Admin User" "+251900000000" "admin@goldendigital.pro.et" admin
          0 1000000 0 "ADMINPRO" "2022-11-01".

Definition INITIAL_USERS : Users.t :=
  [("usr_1", usr_1); ("usr_2", usr_2); ("usr_3", usr_3)].

Definition INITIAL_TRANSACTIONS : list Transaction.t :=
  [ Transaction.mk "tx_1" 1721642400000 conversion 2.5 (Some 19875.63)
      None None completed "usr_1";
    Transaction.mk "tx_2" 1721575800000 transfer_out 1.0 None
      (Some "Abebe Bikila") (Some "Fatuma Roba") completed "usr_1";
    Transaction.mk "tx_3" 1721575800000 transfer_in 1.0 None
      (Some "Abebe Bikila") (Some "Fatuma Roba") completed "usr_2";
    Transaction.mk "tx_4" 1721466000000 loan 1.5 (Some 5887.5)
      None None completed "usr_2";
    Transaction.mk "tx_5" 1721732400000 conversion 0.5 (Some 3975.13)
      None None pending "usr_1";
    Transaction.mk "tx_6" 1721304000000 guarantee_provided 0.5 None
      None (Some "Friend Account") completed "usr_1";
    Transaction.mk "tx_7" 1721811600000 withdrawal 2.0 None
      None None pending "usr_2" ].

(** ** Numbers read from a form field *)

(** [n > 0] on the result of [parseFloat]; false for [NaN]. *)
Definition positive (n : option Q) : bool :=
  match n with
  | None => false
  | Some q => negb (Qle_bool q 0)
  end.

(** ** Modal components: validation before the handlers of [App] run *)

Module BuyGoldForm.
  (** [PaymentDetails]: the pair [{ etb, grams }], or [null]. *)
Definition PaymentDetails := option (Q * Q).

  (** [handleBuyGold] (line 304): the payment details it stores, if any. *)
Definition handleBuyGold (etb grams : option Q) : PaymentDetails :=
    match etb, grams with
    | Some e, Some g => if positive etb && positive grams then Some (e, g) else None
    | _, _ => None
    end.
End BuyGoldForm.

(** What a caller of [handleNewTransaction] passes: a transaction without
    [id], [date] and [userId]. No caller sets [from] or [to]. *)
Record TxInput := mkInput {
  in_type : TxType;
  in_amountGrams : Q;
  in_amountETB : option Q;
  in_status : Status
}.

Module ManualPayment.
  (** [handleManualPaymentConfirm] (line 305): the transaction handed to
      [onNewTransaction], none when [paymentDetails] is [null]. *)
Definition handleManualPaymentConfirm (paymentDetails : BuyGoldForm.PaymentDetails)
    : option TxInput :=
    match paymentDetails with
    | None => None
    | Some (etb, grams) => Some (mkInput conversion grams (Some etb) pending)
    end.
End ManualPayment.

Module TransferModal.
  (** The predicate of [find] at line 171. *)
Definition matches (user : User.t) (recipientIdentifier : string) (u : User.t) : bool :=
    (String.eqb (User.phone u) recipientIdentifier
     || String.eqb (User.email u) recipientIdentifier)
    && negb (String.eqb (User.id u) (User.id user)).

  (** [handleTransfer] (lines 160-177): the error it sets, or the arguments
      of its call of [onTransfer]. *)
Definition handleTransfer (user : User.t) (users : Users.t)
      (recipientIdentifier : string) (gramAmount : option Q)
    : string + (string * Q) :=
    match gramAmount with
    | None => inl "Please fill in all fields."       (* [!gramAmount] on NaN *)
    | Some g =>
        if String.eqb recipientIdentifier EmptyString || Qeq_bool g 0 || Qle_bool g 0
        then inl "Please fill in all fields."
        else if negb (Qle_bool g (User.goldBalance user))
        then inl "Insufficient gold balance."
        else match find (matches user recipientIdentifier) (Users.values users) with
             | None => inl "Recipient not found."
             | Some recipient => inr (User.id recipient, g)
             end
    end.
End TransferModal.

Module WithdrawModal.
  (** [handleWithdraw] (lines 196-208). *)
Definition handleWithdraw (user : User.t) (gramAmount : option Q) : string + Q :=
    match gramAmount with
    | None => inl "Please enter a valid amount."
    | Some g =>
        if Qeq_bool g 0 || Qle_bool g 0
        then inl "Please enter a valid amount."
        else if negb (Qle_bool g (User.goldBalance user))
        then inl "Insufficient gold balance for withdrawal."
        else inr g
    end.
End WithdrawModal.

Module LoanSelfModal.
Definition maxLoanableETB (user : User.t) (livePrice : Q) : Q :=
    User.goldBalance user * livePrice * LOAN_TO_VALUE_RATIO.

  (** Line 238; the value is read by [handleLoan] only after the amount
      was checked to be a positive number. *)
Definition requiredCollateralGrams (livePrice : Q) (etbAmount : option Q) : Q :=
    match etbAmount with
    | Some e => (e / livePrice) / LOAN_TO_VALUE_RATIO
    | None => 0
    end.

  (** [handleLoan] (lines 240-246): the error, or the arguments of
      [onLoan(requiredCollateralGrams, loanETB)]. *)
Definition handleLoan (user : User.t) (livePrice : Q) (etbAmount : option Q)
    : string + (Q * Q) :=
    match etbAmount with
    | None => inl "Please enter a valid amount."
    | Some loanETB =>
        if Qeq_bool loanETB 0 || Qle_bool loanETB 0
        then inl "Please enter a valid amount."
        else if negb (Qle_bool loanETB (maxLoanableETB user livePrice))
        then inl "Requested amount exceeds the maximum allowed."
        else inr (requiredCollateralGrams livePrice etbAmount, loanETB)
    end.
End LoanSelfModal.

Module AdminDashboard.
  (** Line 429: the rows of the approvals table; the Approve and Reject
      buttons exist for these transactions only. *)
Definition pendingTransactions (transactions : list Transaction.t) : list Transaction.t :=
    filter (fun tx => Status_eqb (Transaction.status tx) pending) transactions.
End AdminDashboard.

(** ** The [App] component (index.tsx, lines 525-693) *)

(** The state of [App] that the ledger reads and writes: the three values
    kept in local storage and the live price. *)
Record AppState := mkState {
  users : Users.t;
  transactions : list Transaction.t;
  currentUserId : option string;
  livePrice : Q
}.

(** What an event handler did. *)
Inductive result :=
| Done (st' : AppState)      (* it returned; [st'] is the state after its setters *)
| Error (message : string)   (* a modal called [setError] and returned *)
| Threw                      (* a [TypeError] before any setter ran *)
| Unavailable.               (* the control is not rendered in this state *)

Definition state_after (st : AppState) (r : result) : AppState :=
  match r with
  | Done st' => st'
  | Error _ | Threw | Unavailable => st
  end.

(** [`tx_${Date.now()}`] *)
Definition tx_id (now : Z) : string :=
  "tx_" ++ NilZero.string_of_int (Z.to_int now).

Module App.

Definition initial : AppState :=
  mkState INITIAL_USERS INITIAL_TRANSACTIONS None BASE_GOLD_PRICE_ETB.

(** Line 542: [currentUserId ? users[currentUserId] : null]; the empty
    string is falsy. *)
Definition currentUser (st : AppState) : option User.t :=
  match currentUserId st with
  | None => None
  | Some i => if String.eqb i EmptyString then None else Users.get i (users st)
  end.

(** Lines 550-557. *)
Definition handleLogin (st : AppState) (userId : string) : AppState :=
  match Users.get userId (users st) with
  | Some _ => mkState (users st) (transactions st) (Some userId) (livePrice st)
  | None => st
  end.

(** Line 558. *)
Definition handleLogout (st : AppState) : AppState :=
  mkState (users st) (transactions st) None (livePrice st).

(** Lines 562-563: the new record and the updater given to
    [setTransactions], for the current user [cu] of the rendering closure. *)
Definition newTransaction (cu : User.t) (tx : TxInput) (now_id now_date : Z)
  : Transaction.t :=
  Transaction.mk (tx_id now_id) now_date (in_type tx) (in_amountGrams tx)
                 (in_amountETB tx) None None (in_status tx) (User.id cu).

(** Lines 560-564. *)
Definition handleNewTransaction (st : AppState) (tx : TxInput) (now_id now_date : Z)
  : AppState :=
  match currentUser st with
  | None => st
  | Some cu =>
      mkState (users st)
              (sort (newTransaction cu tx now_id now_date :: transactions st))
              (currentUserId st) (livePrice st)
  end.

(** Lines 133-138, 305 and 560-564: the timer of a confirmed payment, two
    seconds after the click on 'I have sent the money'. Its callback is the
    [onConfirm] of the rendering in which the click took place, state
    [clicked]: [paymentDetails], [currentUser] and the [storedValue] that
    [setTransactions] hands to its updater (lines 90-94) are those of that
    rendering, whatever was stored since. The setter writes the transactions
    only; [st] is the state in which the timer fires, and the clock is read
    then. *)
Definition purchaseTimer (clicked st : AppState)
    (paymentDetails : BuyGoldForm.PaymentDetails) (now_id now_date : Z) : AppState :=
  match ManualPayment.handleManualPaymentConfirm paymentDetails with
  | None => st
  | Some newTx =>
      match currentUser clicked with
      | None => st
      | Some cu =>
          mkState (users st)
                  (sort (newTransaction cu newTx now_id now_date :: transactions clicked))
                  (currentUserId st) (livePrice st)
      end
  end.

(** Lines 578-579. *)
Definition outTx (sender recipient : User.t) (amountGrams : Q) (now_id now_date : Z)
  : Transaction.t :=
  Transaction.mk (tx_id now_id ++ "_out") now_date transfer_out amountGrams None
                 (Some (User.name sender)) (Some (User.name recipient))
                 completed (User.id sender).

Definition inTx (sender recipient : User.t) (amountGrams : Q) (now_id now_date : Z)
  : Transaction.t :=
  Transaction.mk (tx_id now_id ++ "_in") now_date transfer_in amountGrams None
                 (Some (User.name sender)) (Some (User.name recipient))
                 completed (User.id recipient).

(** Lines 566-584. The clock is read four times: for the id and the date of
    the outgoing record, then for those of the incoming one. *)
Definition handleTransfer (st : AppState) (recipientId : string) (amountGrams : Q)
    (t1 t2 t3 t4 : Z) : result :=
  match currentUser st with
  | None => Done st
  | Some sender =>
      match Users.get recipientId (users st) with
      | None => Threw
      | Some recipient =>
          let updatedUsers :=
            Users.assign (User.id recipient)
              (User.with_goldBalance recipient (User.goldBalance recipient + amountGrams))
              (Users.assign (User.id sender)
                 (User.with_goldBalance sender (User.goldBalance sender - amountGrams))
                 (users st)) in
          Done (mkState updatedUsers
                  (sort (outTx sender recipient amountGrams t1 t2
                         :: inTx sender recipient amountGrams t3 t4
                         :: transactions st))
                  (currentUserId st) (livePrice st))
      end
  end.

(** Lines 586-590. *)
Definition handleWithdraw (st : AppState) (amountGrams : Q) (now_id now_date : Z)
  : AppState :=
  handleNewTransaction st (mkInput withdrawal amountGrams None pending) now_id now_date.

(** Lines 592-603. [handleNewTransaction] is the one of the same rendering:
    it sees the same current user and the same previous transactions. *)
Definition handleLoan (st : AppState) (collateralGrams loanETB : Q) (now_id now_date : Z)
  : AppState :=
  match currentUser st with
  | None => st
  | Some cu =>
      let receivedETB := loanETB * (1 - LOAN_COMMISSION_RATE) in
      let updatedUsers :=
        Users.assign (User.id cu)
          (User.with_balances cu (User.goldBalance cu - collateralGrams)
                                 (User.etbBalance cu + receivedETB))
          (users st) in
      mkState updatedUsers
              (sort (newTransaction cu (mkInput loan collateralGrams (Some loanETB) completed)
                                    now_id now_date
                     :: transactions st))
              (currentUserId st) (livePrice st)
  end.

(** Line 620: the status written by [action]. *)
Definition resolved (action : Action) : Status :=
  match action with
  | approve => completed
  | reject => failed
  end.

Definition updatedTransactions (transactions : list Transaction.t) (txId : string)
    (action : Action) : list Transaction.t :=
  map (fun t => if String.eqb (Transaction.id t) txId
                then Transaction.with_status t (resolved action)
                else t)
      transactions.

(** Lines 610-617: the users after the balance change, [None] when
    [user.id] is read on [undefined]. *)
Definition approvedUsers (users : Users.t) (tx : Transaction.t) (action : Action)
  : option Users.t :=
  match action, Transaction.type tx with
  | approve, conversion =>
      match Users.get (Transaction.userId tx) users with
      | None => None
      | Some u =>
          Some (Users.assign (User.id u)
                  (User.with_goldBalance u (User.goldBalance u + Transaction.amountGrams tx))
                  users)
      end
  | approve, withdrawal =>
      match Users.get (Transaction.userId tx) users with
      | None => None
      | Some u =>
          Some (Users.assign (User.id u)
                  (User.with_goldBalance u (User.goldBalance u - Transaction.amountGrams tx))
                  users)
      end
  | _, _ => Some users
  end.

(** Lines 605-623. *)
Definition handleApproval (st : AppState) (txId : string) (action : Action) : result :=
  match find (fun t => String.eqb (Transaction.id t) txId) (transactions st) with
  | None => Done st
  | Some tx =>
      match approvedUsers (users st) tx action with
      | None => Threw
      | Some updatedUsers =>
          Done (mkState updatedUsers
                  (updatedTransactions (transactions st) txId action)
                  (currentUserId st) (livePrice st))
      end
  end.

(** Line 660: one run of the interval callback; [random] is the value of
    [Math.random()]. *)
Definition priceTick (random : Q) (p : Q) : Q :=
  Qmax 7800 (p + (random - 0.5) * 10).

(** *** User intents, as the rendering of [App] wires them (lines 662-688)

    Without a current user only the login page is rendered; the forms and
    modals receive the current user as [user]; the admin console is rendered
    for a current user whose role is [admin], and its buttons exist for the
    pending transactions only.

    [submitPurchase] stands for a purchase whose timer finds the stored
    transactions and the session as they were at the click on 'I have sent
    the money'; a price tick in between writes nothing that the timer
    reads. It is [purchaseTimer st st]. A timer that fires after the stored
    transactions have changed is [purchaseTimer clicked st] with two
    states, and is not among the intents. *)

Inductive Intent :=
| login (userId : string)
| logout
| submitPurchase (etb grams : option Q) (now_id now_date : Z)
| transfer (recipientIdentifier : string) (amount : option Q) (t1 t2 t3 t4 : Z)
| requestWithdrawal (amount : option Q) (now_id now_date : Z)
| requestLoan (amountETB : option Q) (now_id now_date : Z)
| resolveApproval (txId : string) (action : Action)
| tick (random : Q).

Definition is_purchase (i : Intent) : bool :=
  match i with
  | submitPurchase _ _ _ _ => true
  | _ => false
  end.

Definition offered (st : AppState) (txId : string) : bool :=
  existsb (fun tx => String.eqb (Transaction.id tx) txId)
          (AdminDashboard.pendingTransactions (transactions st)).

Definition run (st : AppState) (i : Intent) : result :=
  match i with
  | login userId =>
      match currentUser st with
      | None => Done (handleLogin st userId)
      | Some _ => Unavailable
      end
  | logout =>
      match currentUser st with
      | None => Unavailable
      | Some _ => Done (handleLogout st)
      end
  | submitPurchase etb grams now_id now_date =>
      match currentUser st with
      | None => Unavailable
      | Some _ =>
          match ManualPayment.handleManualPaymentConfirm
                  (BuyGoldForm.handleBuyGold etb grams) with
          | None => Done st
          | Some newTx => Done (handleNewTransaction st newTx now_id now_date)
          end
      end
  | transfer recipientIdentifier amount t1 t2 t3 t4 =>
      match currentUser st with
      | None => Unavailable
      | Some cu =>
          match TransferModal.handleTransfer cu (users st) recipientIdentifier amount with
          | inl message => Error message
          | inr (recipientId, gramAmount) =>
              handleTransfer st recipientId gramAmount t1 t2 t3 t4
          end
      end
  | requestWithdrawal amount now_id now_date =>
      match currentUser st with
      | None => Unavailable
      | Some cu =>
          match WithdrawModal.handleWithdraw cu amount with
          | inl message => Error message
          | inr gramAmount => Done (handleWithdraw st gramAmount now_id now_date)
          end
      end
  | requestLoan amountETB now_id now_date =>
      match currentUser st with
      | None => Unavailable
      | Some cu =>
          match LoanSelfModal.handleLoan cu (livePrice st) amountETB with
          | inl message => Error message
          | inr (collateralGrams, loanETB) =>
              Done (handleLoan st collateralGrams loanETB now_id now_date)
          end
      end
  | resolveApproval txId action =>
      match currentUser st with
      | None => Unavailable
      | Some cu =>
          if Role_eqb (User.role cu) admin && offered st txId
          then handleApproval st txId action
          else Unavailable
      end
  | tick random =>
      if Qle_bool 0 random && negb (Qle_bool 1 random)
      then Done (mkState (users st) (transactions st) (currentUserId st)
                         (priceTick random (livePrice st)))
      else Unavailable
  end.

Definition step (st : AppState) (i : Intent) : AppState :=
  state_after st (run st i).

Definition run_all (st : AppState) (l : list Intent) : AppState :=
  fold_left step l st.

End App.

(** ** Predicates used in the statements *)

(** Descending dates: [a] may stand before [b]. *)
Definition date_desc (a b : Transaction.t) : Prop :=
  (Transaction.date b <= Transaction.date a)%Z.

(** The association list represents an object whose keys are the ids of
    the records it holds. *)
Definition users_wf (m : Users.t) : Prop :=
  NoDup (Users.keys m) /\ Forall (fun kv => User.id (snd kv) = fst kv) m.

(** Two records that differ at most in [status]. *)
Definition same_but_status (t t' : Transaction.t) : Prop :=
  Transaction.id t' = Transaction.id t
  /\ Transaction.date t' = Transaction.date t
  /\ Transaction.type t' = Transaction.type t
  /\ Transaction.amountGrams t' = Transaction.amountGrams t
  /\ Transaction.amountETB t' = Transaction.amountETB t
  /\ Transaction.from t' = Transaction.from t
  /\ Transaction.to t' = Transaction.to t
  /\ Transaction.userId t' = Transaction.userId t.

(** The last character of a string. *)
Fixpoint last_ascii (s : string) : option ascii :=
  match s with
  | EmptyString => None
  | String c EmptyString => Some c
  | String _ s' => last_ascii s'
  end.

(** The transaction that [handleApproval] resolves under [txId]. *)
Definition found (st : AppState) (txId : string) : option Transaction.t :=
  find (fun t => String.eqb (Transaction.id t) txId) (transactions st).

(** No gold or cash balance differs between two user objects. *)
Definition balances_unaltered (m m' : Users.t) : Prop :=
  forall k,
    match Users.get k m, Users.get k m' with
    | Some u, Some u' =>
        User.goldBalance u' == User.goldBalance u
        /\ User.etbBalance u' == User.etbBalance u
    | None, None => True
    | _, _ => False
    end.

(** Resolving [txId] once more, when the transaction found under it is
    already completed or failed, alters no balance and leaves its status. *)
Definition terminal_resolution_is_noop (st : AppState) (txId : string)
    (action : Action) : Prop :=
  forall tx,
    found st txId = Some tx ->
    Transaction.status tx <> pending ->
    let st' := state_after st (App.handleApproval st txId action) in
    balances_unaltered (users st) (users st')
    /\ found st' txId = Some tx.

(** Every gold and cash balance of the users object is at least zero. *)
Definition balances_nonnegative (m : Users.t) : Prop :=
  Forall (fun kv => 0 <= User.goldBalance (snd kv) /\ 0 <= User.etbBalance (snd kv)) m.

(** Abebe Bikila confirms a payment and, before its timer fires, sends
    1 g to Fatuma Roba: the state of the click and the state in which the
    timer fires. *)
Definition payment_confirmed : AppState := App.handleLogin App.initial "usr_1".

Definition transfer_before_timer : AppState :=
  App.step payment_confirmed
    (App.transfer "fatuma@example.com" (Some 1) 1721900000000 1721900000000
                  1721900000000 1721900000000).

(** From the seeded state: Fatuma Roba (12.25 g, with the pending
    withdrawal [tx_7] of 2 g) transfers all her gold to Abebe Bikila, then
    the administrator approves [tx_7]. *)
Definition overdraw_trace : list App.Intent :=
  [ App.login "usr_2";
    App.transfer "+251912345678" (Some 12.25) 1721900000000 1721900000000
                 1721900000000 1721900000000;
    App.logout;
    App.login "usr_3";
    App.resolveApproval "tx_7" approve ].

(** From the seeded state: Abebe Bikila (5.75 g) requests two withdrawals
    of 5 g, each within his balance; the administrator approves both. *)
Definition double_withdrawal_trace : list App.Intent :=
  [ App.login "usr_1";
    App.requestWithdrawal (Some 5) 1721900000000 1721900000000;
    App.requestWithdrawal (Some 5) 1721900060000 1721900060000;
    App.logout;
    App.login "usr_3";
    App.resolveApproval "tx_1721900000000" approve;
    App.resolveApproval "tx_1721900060000" approve ].

(** ** Views of the ledger (index.tsx, lines 321-370, 427-460, 667) *)

(** Line 667: the transactions handed to the dashboard and the profile of
    the current user [cu]. *)
Definition userTransactions (st : AppState) (cu : User.t) : list Transaction.t :=
  filter (fun tx => String.eqb (Transaction.userId tx) (User.id cu)) (transactions st).

(** Line 444: the user that a row of the approvals table looks up,
    [None] for [undefined]. *)
Definition rowUser (users : list User.t) (tx : Transaction.t) : option User.t :=
  find (fun u => String.eqb (User.id u) (Transaction.userId tx)) users.

(** Line 447: [user?.name || 'Unknown'], the text of the first cell of the
    row; the empty string is falsy. *)
Definition rowName (users : list User.t) (tx : Transaction.t) : string :=
  match rowUser users tx with
  | None => "Unknown"
  | Some u => if String.eqb (User.name u) EmptyString then "Unknown" else User.name u
  end.

Module TransactionHistory.

(** Lines 324 and 348:
    [['transfer_out', 'withdrawal', 'loan', 'guarantee_provided'].includes(type)]. *)
Definition outgoing (type : TxType) : bool :=
  existsb (TxType_eqb type) [transfer_out; withdrawal; loan; guarantee_provided].

(** Line 328: [transactions.slice(0, limit)], the rows that are rendered. *)
Definition shown (transactions : list Transaction.t) (limit : nat) : list Transaction.t :=
  firstn limit transactions.

(** The rows that are left out. *)
Definition hidden (transactions : list Transaction.t) (limit : nat) : list Transaction.t :=
  skipn limit transactions.

End TransactionHistory.

(** The comparator of line 346,
    [(a, b) => new Date(a.date).getTime() - new Date(b.date).getTime()]. *)
Definition byDateAsc (a b : Transaction.t) : Z :=
  (Transaction.date a - Transaction.date b)%Z.

(** The stable sort for any comparator; [sort] is its instance at
    [byDateDesc]. *)
Fixpoint insertBy (cmp : Transaction.t -> Transaction.t -> Z) (x : Transaction.t)
    (l : list Transaction.t) : list Transaction.t :=
  match l with
  | [] => [x]
  | y :: l' => if (0 <? cmp x y)%Z then y :: insertBy cmp x l' else x :: y :: l'
  end.

Definition sortBy (cmp : Transaction.t -> Transaction.t -> Z)
    (l : list Transaction.t) : list Transaction.t :=
  fold_right (insertBy cmp) [] l.

Module GoldValueChartCard.

(** A point of the chart: [{ date, value }]. *)
Definition DataPoint := (Z * Q)%type.

(** Line 348, [amountChange]. *)
Definition amountChange (tx : Transaction.t) : Q :=
  if TransactionHistory.outgoing (Transaction.type tx)
  then - Transaction.amountGrams tx
  else Transaction.amountGrams tx.

(** Line 348, one call of the function given to [map]: the points so far
    and the variable [currentGold] are threaded through. *)
Definition plot (livePrice : Q) (acc : list DataPoint * Q) (tx : Transaction.t)
  : list DataPoint * Q :=
  let currentGold := snd acc + amountChange tx in
  ((fst acc ++ [(Transaction.date tx, currentGold * livePrice)])%list, currentGold).

(** Lines 344-351, [chartData]; [now] is the instant of [new Date()]. *)
Definition chartData (transactions : list Transaction.t) (livePrice : Q) (now : Z)
  : list DataPoint :=
  match transactions with
  | [] => []
  | _ :: _ =>
      let completedTxns :=
        sortBy byDateAsc
          (filter (fun tx => Status_eqb (Transaction.status tx) completed) transactions) in
      let '(dataPoints, currentGold) :=
        fold_left (plot livePrice) completedTxns ([], 0) in
      match dataPoints with
      | [] => dataPoints
      | _ :: _ => (dataPoints ++ [(now, currentGold * livePrice)])%list
      end
  end.

(** Line 363. *)
Definition latestValue (chartData : list DataPoint) : Q :=
  last (map snd chartData) 0.

(** Line 353: the chart shows 'Not enough data'. *)
Definition notEnoughData (chartData : list DataPoint) : bool :=
  (List.length chartData <? 2)%nat.

End GoldValueChartCard.

(** ** Further predicates *)

(** Two user records that differ at most in their two balances. *)
Definition same_but_balances (u u' : User.t) : Prop :=
  User.id u' = User.id u
  /\ User.name u' = User.name u
  /\ User.phone u' = User.phone u
  /\ User.email u' = User.email u
  /\ User.role u' = User.role u
  /\ User.guaranteedGrams u' = User.guaranteedGrams u
  /\ User.referralCode u' = User.referralCode u
  /\ User.joinDate u' = User.joinDate u.

(** Every stored transaction is owned by a key of the users object. *)
Definition owners_exist (st : AppState) : Prop :=
  Forall (fun tx => In (Transaction.userId tx) (Users.keys (users st))) (transactions st).

(** No two stored transactions share an id. *)
Definition unique_ids (st : AppState) : Prop :=
  NoDup (map Transaction.id (transactions st)).

(** The net gold of a list of transactions, as the chart counts it. *)
Definition netGold (l : list Transaction.t) : Q :=
  fold_right (fun tx s => GoldValueChartCard.amountChange tx + s) 0 l.

(** The price after a run of ticks, one value of [Math.random()] each. *)
Definition ticks (p : Q) (randoms : list Q) : Q :=
  fold_left (fun p random => App.priceTick random p) randoms p.

(** Two entries of the users object with the same key whose records differ
    at most in their balances. *)
Definition same_entry (kv kv' : string * User.t) : Prop :=
  fst kv' = fst kv /\ same_but_balances (snd kv) (snd kv').

(** The stored session, if any, names a key of the users object. *)
Definition session_valid (st : AppState) : Prop :=
  match currentUserId st with
  | None => True
  | Some i => In i (Users.keys (users st))
  end.

(** A state with Abebe Bikila logged in that stores the two pending
    transactions of the seeded data, the later one first. *)
Definition two_pending : AppState :=
  mkState INITIAL_USERS
    [ Transaction.mk "tx_7" 1721811600000 withdrawal 2.0 None
        None None pending "usr_2";
      Transaction.mk "tx_5" 1721732400000 conversion 0.5 (Some 3975.13)
        None None pending "usr_1" ]
    (Some "usr_1"%string) BASE_GOLD_PRICE_ETB.

(** ** The service worker (sw.js)

    The cache storage of the browser is modelled as far as the worker uses
    it: a sequence of named caches in the order of their creation, each a
    sequence of entries from the URL of the stored request to a response.
    Requests are identified with their method and URL, the absolute
    serialization that [request.url] gives, fragment included. As the
    platform has it, only GET requests are matched, URLs are compared with
    their fragments excluded, and only GET requests of the schemes [http]
    and [https] are stored. Requests and responses have no headers in the
    model: no response carries a [Vary] header. The handler of a fetch
    event is followed to the end of its promise chain, the store into the
    cache included. *)

Module ServiceWorker.

Record Request := mkRequest { url : string; method : string }.

Record Response := mkResponse { status : Z; type : string; body : string }.

Definition Cache := list (string * Response).

Definition CacheStorage := list (string * Cache).

(** Line 1. *)
Definition CACHE_NAME : string := "golden-digital-gold-cache-v2".

(** Lines 3-10. *)
Definition urlsToCache : list string :=
  [ "/"; "/index.html"; "/index.css"; "/index.js";
    "https://fonts.googleapis.com/css2?family=Inter:wght@400;500;600;700&display=swap";
    "https://fonts.googleapis.com/icon?family=Material+Icons" ]%string.

Definition isGet (request : Request) : bool := String.eqb (method request) "GET".

(** A URL without its fragment: the serialization up to the first [#]. *)
Fixpoint withoutFragment (u : string) : string :=
  match u with
  | EmptyString => EmptyString
  | String c u' =>
      if Ascii.eqb c "#" then EmptyString else String c (withoutFragment u')
  end.

(** The schemes whose requests a cache stores. *)
Definition httpScheme (u : string) : bool :=
  String.prefix "http://" u || String.prefix "https://" u.

(** Whether [request] matches the entry stored for the URL [u]: the method
    is GET and the two URLs are equal, fragments excluded. The query string
    counts, no option of [match] being set. *)
Definition matchesEntry (request : Request) (u : string) : bool :=
  isGet request && String.eqb (withoutFragment u) (withoutFragment (url request)).

(** [cache.match(request)]: the response of the first entry that matches. *)
Fixpoint cache_match (c : Cache) (request : Request) : option Response :=
  match c with
  | [] => None
  | (u, r) :: c' =>
      if matchesEntry request u then Some r
      else cache_match c' request
  end.

(** The entries of a cache after [cache.put(request, response)] for the URL
    [u]: the entries that the request matches are removed, and the new entry
    is added last. *)
Definition put_entry (u : string) (response : Response) (c : Cache) : Cache :=
  (filter (fun entry =>
             negb (String.eqb (withoutFragment (fst entry)) (withoutFragment u))) c
   ++ [(u, response)])%list.

(** [cache.put(request, response)]; the promise is rejected, and the cache
    left as it is, for a request that is not a GET or whose URL is not an
    [http] or [https] one. Line 73 does not wait for the promise, and the
    response is handed on in either case. *)
Definition cache_put (request : Request) (response : Response) (c : Cache) : Cache :=
  if isGet request && httpScheme (url request)
  then put_entry (url request) response c
  else c.

(** [caches.match(request)]: the first match in the order of the caches. *)
Fixpoint caches_match (caches : CacheStorage) (request : Request) : option Response :=
  match caches with
  | [] => None
  | (_, c) :: caches' =>
      match cache_match c request with
      | Some r => Some r
      | None => caches_match caches' request
      end
  end.

(** [caches.open(name).then(cache => f(cache))]: the cache is created,
    last, when there is none of that name. *)
Fixpoint caches_open (name : string) (f : Cache -> Cache) (caches : CacheStorage)
  : CacheStorage :=
  match caches with
  | [] => [(name, f [])]
  | (n, c) :: caches' =>
      if String.eqb n name then (n, f c) :: caches'
      else (n, c) :: caches_open name f caches'
  end.

(** Lines 26-39, the activate event: [caches.delete] for every name that
    is not in [cacheWhitelist]. *)
Definition onActivate (caches : CacheStorage) : CacheStorage :=
  let cacheWhitelist := [CACHE_NAME] in
  filter (fun entry => existsb (String.eqb (fst entry)) cacheWhitelist) caches.

(** What became of a fetch event. *)
Inductive FetchResult :=
| Bypassed                                          (* no [respondWith] *)
| Responded (response : Response) (caches' : CacheStorage)
| Failed.                                           (* [fetch] was rejected *)

(** Line 60: the responses that are handed on without being stored. *)
Definition notCacheable (networkResponse : Response) : bool :=
  negb (status networkResponse =? 200)%Z
  || (negb (String.eqb (type networkResponse) "basic")
      && negb (String.eqb (type networkResponse) "cors")).

(** Lines 42-80, the fetch event; [network] is what [fetch(event.request)]
    resolves to, [None] when it is rejected. *)
Definition onFetch (caches : CacheStorage) (request : Request)
    (network : option Response) : FetchResult :=
  if String.prefix "https://esm.sh/" (url request) then Bypassed
  else
    match caches_match caches request with
    | Some response => Responded response caches
    | None =>
        match network with
        | None => Failed
        | Some networkResponse =>
            if notCacheable networkResponse
            then Responded networkResponse caches
            else Responded networkResponse
                   (caches_open CACHE_NAME (cache_put request networkResponse) caches)
        end
    end.

(** The cache storage after the event. *)
Definition caches_after (caches : CacheStorage) (r : FetchResult) : CacheStorage :=
  match r with
  | Responded _ caches' => caches'
  | Bypassed | Failed => caches
  end.

End ServiceWorker.

(** ** The ledger over binary64

    Where the rounding of the arithmetic decides a property, the handlers
    are embedded a second time with the [number]s of the source as they
    are: IEEE 754 binary64 values, the primitive floats of the kernel, with
    [+], [-], [*], [/] rounding to nearest and [<], [<=], [==] comparing as
    the language does. A decimal literal stands for the double nearest to
    it, as in the source. The result of [parseFloat] is a float, [NaN]
    included. Everything else is as in the embedding above. *)

Set Warnings "-inexact-float".

Module Binary64.
Import PrimFloat.
Local Open Scope float_scope.

(** [!x] for a number [x]: true on [NaN], [0] and [-0]. *)
Definition falsy (x : float) : bool := is_nan x || (x =? 0).

(** [Math.max(a, b)] *)
Definition Math_max (a b : float) : float :=
  if is_nan a || is_nan b then nan else if a <? b then b else a.

(** The real number that a finite double stands for. *)
Definition exact (x : float) : option Q :=
  match FloatOps.Prim2SF x with
  | SpecFloat.S754_zero _ => Some 0%Q
  | SpecFloat.S754_finite s m e =>
      Some ((if s then -1 else 1) * (Zpos m # 1) * Qpower 2 e)%Q
  | _ => None
  end.

Definition BASE_GOLD_PRICE_ETB : float := 7950.25.
Definition LOAN_TO_VALUE_RATIO : float := 0.5.
Definition LOAN_COMMISSION_RATE : float := 0.05.

Module Transaction.
Record t := mk {
  id : string;
  date : Z;
  type : TxType;
  amountGrams : float;
  amountETB : option float;
  from : option string;
  to : option string;
  status : Status;
  userId : string
}.
End Transaction.

Module User.
Record t := mk {
  id : string;
  name : string;
  phone : string;
  email : string;
  role : Role;
  goldBalance : float;
  etbBalance : float;
  guaranteedGrams : float;
  referralCode : string;
  joinDate : string
}.

(** [{ ...u, goldBalance: g }] *)
Definition with_goldBalance (u : t) (g : float) : t :=
  mk (id u) (name u) (phone u) (email u) (role u) g (etbBalance u)
     (guaranteedGrams u) (referralCode u) (joinDate u).

(** [{ ...u, goldBalance: g, etbBalance: e }] *)
Definition with_balances (u : t) (g e : float) : t :=
  mk (id u) (name u) (phone u) (email u) (role u) g e
     (guaranteedGrams u) (referralCode u) (joinDate u).
End User.

Module Users.
Definition t := list (string * User.t).

Fixpoint get (k : string) (m : t) : option User.t :=
  match m with
  | [] => None
  | (k', v) :: m' => if String.eqb k k' then Some v else get k m'
  end.

Fixpoint assign (k : string) (v : User.t) (m : t) : t :=
  match m with
  | [] => [(k, v)]
  | (k', v') :: m' =>
      if String.eqb k k' then (k', v) :: m' else (k', v') :: assign k v m'
  end.

Definition values (m : t) : list User.t := map snd m.

Definition keys (m : t) : list string := map fst m.
End Users.

Definition byDateDesc (a b : Transaction.t) : Z :=
  (Transaction.date b - Transaction.date a)%Z.

Fixpoint insert (x : Transaction.t) (l : list Transaction.t) : list Transaction.t :=
  match l with
  | [] => [x]
  | y :: l' => if (0 <? byDateDesc x y)%Z then y :: insert x l' else x :: y :: l'
  end.

Definition sort (l : list Transaction.t) : list Transaction.t :=
  fold_right insert [] l.

Definition usr_1 : User.t :=
  User.mk "usr_1" "Abebe Bikila" "+251912345678" "abebe@example.com" user
          5.75 12000 0.5 "GOLDENAB24" "2023-08-15".
Definition usr_2 : User.t :=
  User.mk "usr_2" "Fatuma Roba" "+251923456789" "fatuma@example.com" user
          12.25 5500 0 "FATUMA88" "2023-01-20".
Definition usr_3 : User.t :=
  User.mk "usr_3" "Admin User" "+251900000000" "admin@goldendigital.pro.et" admin
          0 1000000 0 "ADMINPRO" "2022-11-01".

Definition INITIAL_USERS : Users.t :=
  [("usr_1"%string, usr_1); ("usr_2"%string, usr_2); ("usr_3"%string, usr_3)].

Definition INITIAL_TRANSACTIONS : list Transaction.t :=
  [ Transaction.mk "tx_1" 1721642400000 conversion 2.5 (Some 19875.63)
      None None completed "usr_1";
    Transaction.mk "tx_2" 1721575800000 transfer_out 1.0 None
      (Some "Abebe Bikila"%string) (Some "Fatuma Roba"%string) completed "usr_1";
    Transaction.mk "tx_3" 1721575800000 transfer_in 1.0 None
      (Some "Abebe Bikila"%string) (Some "Fatuma Roba"%string) completed "usr_2";
    Transaction.mk "tx_4" 1721466000000 loan 1.5 (Some 5887.5)
      None None completed "usr_2";
    Transaction.mk "tx_5" 1721732400000 conversion 0.5 (Some 3975.13)
      None None pending "usr_1";
    Transaction.mk "tx_6" 1721304000000 guarantee_provided 0.5 None
      None (Some "Friend Account"%string) completed "usr_1";
    Transaction.mk "tx_7" 1721811600000 withdrawal 2.0 None
      None None pending "usr_2" ].

Module TransferModal.
Definition matches (user : User.t) (recipientIdentifier : string) (u : User.t) : bool :=
  (String.eqb (User.phone u) recipientIdentifier
   || String.eqb (User.email u) recipientIdentifier)
  && negb (String.eqb (User.id u) (User.id user)).

(** [handleTransfer] (lines 160-177); [gramAmount] is [parseFloat(amount)]. *)
Definition handleTransfer (user : User.t) (users : Users.t)
    (recipientIdentifier : string) (gramAmount : float)
  : string + (string * float) :=
  if String.eqb recipientIdentifier EmptyString || falsy gramAmount
     || (gramAmount <=? 0)
  then inl "Please fill in all fields."%string
  else if User.goldBalance user <? gramAmount
  then inl "Insufficient gold balance."%string
  else match find (matches user recipientIdentifier) (Users.values users) with
       | None => inl "Recipient not found."%string
       | Some recipient => inr (User.id recipient, gramAmount)
       end.
End TransferModal.

Module LoanSelfModal.
(** Line 237. *)
Definition maxLoanableETB (user : User.t) (livePrice : float) : float :=
  User.goldBalance user * livePrice * LOAN_TO_VALUE_RATIO.

(** Line 238, for a field that is not empty; [loanETB] is
    [parseFloat(etbAmount)]. An empty field parses to [NaN], which
    [handleLoan] turns down before the collateral is read. *)
Definition requiredCollateralGrams (livePrice loanETB : float) : float :=
  (loanETB / livePrice) / LOAN_TO_VALUE_RATIO.

(** [handleLoan] (lines 240-246). *)
Definition handleLoan (user : User.t) (livePrice loanETB : float)
  : string + (float * float) :=
  if falsy loanETB || (loanETB <=? 0)
  then inl "Please enter a valid amount."%string
  else if maxLoanableETB user livePrice <? loanETB
  then inl "Requested amount exceeds the maximum allowed."%string
  else inr (requiredCollateralGrams livePrice loanETB, loanETB).
End LoanSelfModal.

Record AppState := mkState {
  users : Users.t;
  transactions : list Transaction.t;
  currentUserId : option string;
  livePrice : float
}.

Inductive result :=
| Done (st' : AppState)
| Error (message : string)
| Threw
| Unavailable.

Definition state_after (st : AppState) (r : result) : AppState :=
  match r with
  | Done st' => st'
  | Error _ | Threw | Unavailable => st
  end.

Module App.

Definition initial : AppState :=
  mkState INITIAL_USERS INITIAL_TRANSACTIONS None BASE_GOLD_PRICE_ETB.

Definition currentUser (st : AppState) : option User.t :=
  match currentUserId st with
  | None => None
  | Some i => if String.eqb i EmptyString then None else Users.get i (users st)
  end.

Definition handleLogin (st : AppState) (userId : string) : AppState :=
  match Users.get userId (users st) with
  | Some _ => mkState (users st) (transactions st) (Some userId) (livePrice st)
  | None => st
  end.

Definition handleLogout (st : AppState) : AppState :=
  mkState (users st) (transactions st) None (livePrice st).

Definition outTx (sender recipient : User.t) (amountGrams : float)
    (now_id now_date : Z) : Transaction.t :=
  Transaction.mk (tx_id now_id ++ "_out") now_date transfer_out amountGrams None
                 (Some (User.name sender)) (Some (User.name recipient))
                 completed (User.id sender).

Definition inTx (sender recipient : User.t) (amountGrams : float)
    (now_id now_date : Z) : Transaction.t :=
  Transaction.mk (tx_id now_id ++ "_in") now_date transfer_in amountGrams None
                 (Some (User.name sender)) (Some (User.name recipient))
                 completed (User.id recipient).

(** Lines 566-584. *)
Definition handleTransfer (st : AppState) (recipientId : string) (amountGrams : float)
    (t1 t2 t3 t4 : Z) : result :=
  match currentUser st with
  | None => Done st
  | Some sender =>
      match Users.get recipientId (users st) with
      | None => Threw
      | Some recipient =>
          let updatedUsers :=
            Users.assign (User.id recipient)
              (User.with_goldBalance recipient (User.goldBalance recipient + amountGrams))
              (Users.assign (User.id sender)
                 (User.with_goldBalance sender (User.goldBalance sender - amountGrams))
                 (users st)) in
          Done (mkState updatedUsers
                  (sort (outTx sender recipient amountGrams t1 t2
                         :: inTx sender recipient amountGrams t3 t4
                         :: transactions st))
                  (currentUserId st) (livePrice st))
      end
  end.

(** Lines 592-603, with the record that [handleNewTransaction] (lines
    560-564) builds for it. *)
Definition loanTx (cu : User.t) (collateralGrams loanETB : float)
    (now_id now_date : Z) : Transaction.t :=
  Transaction.mk (tx_id now_id) now_date loan collateralGrams (Some loanETB)
                 None None completed (User.id cu).

Definition handleLoan (st : AppState) (collateralGrams loanETB : float)
    (now_id now_date : Z) : AppState :=
  match currentUser st with
  | None => st
  | Some cu =>
      let receivedETB := loanETB * (1 - LOAN_COMMISSION_RATE) in
      let updatedUsers :=
        Users.assign (User.id cu)
          (User.with_balances cu (User.goldBalance cu - collateralGrams)
                                 (User.etbBalance cu + receivedETB))
          (users st) in
      mkState updatedUsers
              (sort (loanTx cu collateralGrams loanETB now_id now_date
                     :: transactions st))
              (currentUserId st) (livePrice st)
  end.

(** Line 660. *)
Definition priceTick (random p : float) : float :=
  Math_max 7800 (p + (random - 0.5) * 10).

(** The intents of this embedding: login and logout, transfer, loan
    request, and the tick of the price. *)
Inductive Intent :=
| login (userId : string)
| logout
| transfer (recipientIdentifier : string) (amount : float) (t1 t2 t3 t4 : Z)
| requestLoan (amountETB : float) (now_id now_date : Z)
| tick (random : float).

Definition run (st : AppState) (i : Intent) : result :=
  match i with
  | login userId =>
      match currentUser st with
      | None => Done (handleLogin st userId)
      | Some _ => Unavailable
      end
  | logout =>
      match currentUser st with
      | None => Unavailable
      | Some _ => Done (handleLogout st)
      end
  | transfer recipientIdentifier amount t1 t2 t3 t4 =>
      match currentUser st with
      | None => Unavailable
      | Some cu =>
          match TransferModal.handleTransfer cu (users st) recipientIdentifier amount with
          | inl message => Error message
          | inr (recipientId, gramAmount) =>
              handleTransfer st recipientId gramAmount t1 t2 t3 t4
          end
      end
  | requestLoan amountETB now_id now_date =>
      match currentUser st with
      | None => Unavailable
      | Some cu =>
          match LoanSelfModal.handleLoan cu (livePrice st) amountETB with
          | inl message => Error message
          | inr (collateralGrams, loanETB) =>
              Done (handleLoan st collateralGrams loanETB now_id now_date)
          end
      end
  | tick random =>
      if (0 <=? random) && (random <? 1)
      then Done (mkState (users st) (transactions st) (currentUserId st)
                         (priceTick random (livePrice st)))
      else Unavailable
  end.

Definition step (st : AppState) (i : Intent) : AppState :=
  state_after st (run st i).

Definition run_all (st : AppState) (l : list Intent) : AppState :=
  fold_left step l st.

End App.

Definition users_wf (m : Users.t) : Prop :=
  NoDup (Users.keys m) /\ Forall (fun kv => User.id (snd kv) = fst kv) m.

(** From the seeded state: Abebe Bikila logs in and sends 0.1 g to the
    administrator, whose gold is 0. *)
Definition first_tenth : AppState :=
  App.run_all App.initial
    [ App.login "usr_1";
      App.transfer "+251900000000" 0.1 1721900000000 1721900000000
                   1721900000000 1721900000000 ].

(** From the seeded state: Abebe Bikila logs in and the price moves once,
    [Math.random()] being 0.8610088608533205. *)
Definition after_one_tick : AppState :=
  App.run_all App.initial [ App.login "usr_1"; App.tick 0.8610088608533205 ].

End Binary64.

(** * Properties *)

(** ** The sort *)

Lemma insert_perm (x : Transaction.t) (l : list Transaction.t) :
  Permutation (insert x l) (x :: l).
Proof.
  induction l as [|y l IH]; simpl.
  - apply Permutation_refl.
  - destruct (0 <? byDateDesc x y)%Z.
    + apply perm_trans with (y :: x :: l).
      * now apply perm_skip.
      * apply perm_swap.
    + apply Permutation_refl.
Qed.

Lemma sort_perm (l : list Transaction.t) : Permutation (sort l) l.
Proof.
  induction l as [|x l IH]; simpl.
  - constructor.
  - apply perm_trans with (x :: sort l).
    + apply insert_perm.
    + now apply perm_skip.
Qed.

Lemma insert_sorted (x : Transaction.t) (l : list Transaction.t) :
  StronglySorted date_desc l -> StronglySorted date_desc (insert x l).
Proof.
  induction 1 as [|y l Hs IH Hy]; simpl.
  - repeat constructor.
  - destruct (0 <? byDateDesc x y)%Z eqn:E.
    + constructor; [exact IH|].
      apply Permutation_Forall with (x :: l).
      * apply Permutation_sym, insert_perm.
      * constructor; [|exact Hy].
        apply Z.ltb_lt in E. unfold byDateDesc in E. unfold date_desc. lia.
    + apply Z.ltb_ge in E. unfold byDateDesc in E.
      constructor; [now constructor|].
      constructor; [unfold date_desc; lia|].
      eapply Forall_impl; [|exact Hy].
      intros z Hz. unfold date_desc in *. lia.
Qed.

Lemma sort_sorted (l : list Transaction.t) : StronglySorted date_desc (sort l).
Proof.
  induction l as [|x l IH]; simpl.
  - constructor.
  - now apply insert_sorted.
Qed.

Lemma sort_length (l : list Transaction.t) : List.length (sort l) = List.length l.
Proof. apply Permutation_length, sort_perm. Qed.


(** ** What an intent does to the stored transactions *)

Ltac break_match :=
  match goal with
  | |- context [match ?x with _ => _ end] => destruct x eqn:?
  end.

Ltac break_match_hyp :=
  match goal with
  | H : context [match ?x with _ => _ end] |- _ => destruct x eqn:?
  end.


Lemma handleApproval_transactions st txId action :
  transactions (state_after st (App.handleApproval st txId action)) = transactions st
  \/ transactions (state_after st (App.handleApproval st txId action))
     = App.updatedTransactions (transactions st) txId action.
Proof.
  unfold App.handleApproval.
  repeat break_match; simpl; auto.
Qed.





(** ** The price feed *)

Lemma priceTick_floor (random p : Q) : 7800 <= App.priceTick random p.
Proof. unfold App.priceTick. apply Q.le_max_l. Qed.

Lemma handleApproval_livePrice st txId action :
  livePrice (state_after st (App.handleApproval st txId action)) = livePrice st.
Proof. unfold App.handleApproval. repeat break_match; reflexivity. Qed.

Lemma step_livePrice st i :
  livePrice (App.step st i) = livePrice st
  \/ exists random, livePrice (App.step st i) = App.priceTick random (livePrice st).
Proof.
  unfold App.step.
  destruct i; simpl.
  - unfold App.handleLogin. repeat break_match; simpl; auto.
  - repeat break_match; simpl; auto.
  - unfold App.handleNewTransaction. repeat break_match; simpl; auto.
  - unfold App.handleTransfer. repeat break_match; cbn [state_after livePrice]; auto.
  - unfold App.handleWithdraw, App.handleNewTransaction.
    repeat break_match; cbn [state_after livePrice]; auto.
  - unfold App.handleLoan. repeat break_match; cbn [state_after livePrice]; auto.
  - repeat break_match; cbn [state_after]; auto.
    left. apply handleApproval_livePrice.
  - repeat break_match; cbn [state_after livePrice]; eauto.
Qed.

Lemma run_all_floor (l : list App.Intent) (st : AppState) :
  7800 <= livePrice st -> 7800 <= livePrice (App.run_all st l).
Proof.
  revert st. induction l as [|i l IH]; intros st H; simpl.
  - exact H.
  - apply IH.
    destruct (step_livePrice st i) as [E | [random E]]; rewrite E.
    + exact H.
    + apply priceTick_floor.
Qed.

(** C8. A tick replaces the price [p] by [max(7800, p + delta)] for a
    [delta] between -5 and 5; the new price is at least 7800; in every state
    reached from the seeded one the price is at least 7800 and a tick raises
    it by at most 5. *)
Theorem price_tick_clamped_random_walk (st : AppState) (random : Q) :
  0 <= random -> random < 1 ->
  let st' := App.step st (App.tick random) in
  (exists delta, -5 <= delta /\ delta <= 5
                 /\ livePrice st' = Qmax 7800 (livePrice st + delta))
  /\ 7800 <= livePrice st'
  /\ (forall l, st = App.run_all App.initial l ->
                7800 <= livePrice st /\ livePrice st' - livePrice st <= 5).
Proof.
  intros H0 H1 st'.
  assert (E : livePrice st' = App.priceTick random (livePrice st)).
  { unfold st', App.step, App.run.
    assert (B : Qle_bool 0 random && negb (Qle_bool 1 random) = true).
    { apply andb_true_iff. split.
      - now apply Qle_bool_iff.
      - apply negb_true_iff. destruct (Qle_bool 1 random) eqn:B; [|reflexivity].
        apply Qle_bool_iff in B. lra. }
    rewrite B. reflexivity. }
  split; [|split].
  - exists ((random - 0.5) * 10).
    split; [lra|]. split; [lra|]. exact E.
  - rewrite E. apply priceTick_floor.
  - intros l ->.
    assert (F : 7800 <= livePrice (App.run_all App.initial l)).
    { apply run_all_floor. unfold App.initial, BASE_GOLD_PRICE_ETB. simpl. lra. }
    split; [exact F|].
    rewrite E. unfold App.priceTick.
    apply Q.max_case_strong.
    + intros x y Hxy Hx. rewrite <- Hxy. exact Hx.
    + intros _. lra.
    + intros _. lra.
Qed.

Lemma price_tick_clamped_random_walk_witness :
  7800 <= livePrice (App.step App.initial (App.tick 0.25))
  /\ livePrice (App.step App.initial (App.tick 0.25)) - livePrice App.initial <= 5.
Proof.
  destruct (price_tick_clamped_random_walk App.initial 0.25) as [_ [Hfloor Hrise]].
  - vm_compute. discriminate.
  - reflexivity.
  - split; [exact Hfloor|].
    exact (proj2 (Hrise [] eq_refl)).
Defined.

(** ** Reading and writing the users object *)

Lemma get_assign_same (k : string) (v : User.t) (m : Users.t) :
  Users.get k (Users.assign k v m) = Some v.
Proof.
  induction m as [|[k' v'] m IH]; simpl.
  - now rewrite String.eqb_refl.
  - destruct (String.eqb k k') eqn:E; simpl; rewrite E; auto.
Qed.

Lemma get_assign_other (k k' : string) (v : User.t) (m : Users.t) :
  k' <> k -> Users.get k' (Users.assign k v m) = Users.get k' m.
Proof.
  intros Hne.
  induction m as [|[k0 v0] m IH]; simpl.
  - apply String.eqb_neq in Hne. now rewrite Hne.
  - destruct (String.eqb k k0) eqn:E; simpl.
    + apply String.eqb_eq in E. subst k0.
      apply String.eqb_neq in Hne. now rewrite Hne.
    + now rewrite IH.
Qed.

Lemma keys_assign_present (k : string) (v : User.t) (m : Users.t) :
  In k (Users.keys m) -> Users.keys (Users.assign k v m) = Users.keys m.
Proof.
  induction m as [|[k0 v0] m IH]; simpl; intros H.
  - contradiction.
  - destruct (String.eqb k k0) eqn:E; simpl.
    + reflexivity.
    + f_equal. apply IH. destruct H as [H|H]; [|exact H].
      subst k0. rewrite String.eqb_refl in E. discriminate.
Qed.

Lemma get_some_key (k : string) (u : User.t) (m : Users.t) :
  Users.get k m = Some u -> In (k, u) m.
Proof.
  induction m as [|[k0 v0] m IH]; simpl; intros H.
  - discriminate.
  - destruct (String.eqb k k0) eqn:E.
    + apply String.eqb_eq in E. injection H as ->. subst. now left.
    + right. now apply IH.
Qed.

Lemma wf_get_id (k : string) (u : User.t) (m : Users.t) :
  users_wf m -> Users.get k m = Some u -> User.id u = k.
Proof.
  intros [_ Hid] H. apply get_some_key in H.
  rewrite Forall_forall in Hid. exact (Hid _ H).
Qed.

Lemma wf_get_value (u : User.t) (m : Users.t) :
  users_wf m -> In u (Users.values m) -> Users.get (User.id u) m = Some u.
Proof.
  unfold users_wf, Users.values, Users.keys.
  induction m as [|[k v] m IH]; simpl; intros [Hnd Hid] Hin.
  - contradiction.
  - inversion Hnd as [|? ? Hk Hnd']; subst.
    inversion Hid as [|? ? Hv Hid']; subst. simpl in Hv.
    destruct Hin as [->|Hin].
    + rewrite Hv, String.eqb_refl. reflexivity.
    + destruct (String.eqb (User.id u) k) eqn:E.
      * exfalso. apply String.eqb_eq in E. apply Hk.
        apply in_map_iff in Hin. destruct Hin as [[k' u'] [Hu Hin]].
        simpl in Hu. subst u'.
        rewrite Forall_forall in Hid'. specialize (Hid' _ Hin). simpl in Hid'.
        apply in_map_iff. exists (k', u). split; [simpl; congruence|exact Hin].
      * apply IH; [split; assumption|exact Hin].
Qed.

Lemma wf_assign (u v : User.t) (k : string) (m : Users.t) :
  users_wf m -> Users.get k m = Some u -> User.id v = User.id u ->
  users_wf (Users.assign (User.id u) v m).
Proof.
  intros Hwf Hget Hv.
  pose proof (wf_get_id _ _ _ Hwf Hget) as Hk. subst k.
  destruct Hwf as [Hnd Hid]. split.
  - rewrite keys_assign_present; [exact Hnd|].
    apply get_some_key in Hget.
    apply in_map_iff. exists (User.id u, u). now split.
  - clear Hnd Hget. induction m as [|[k0 v0] m IH]; simpl.
    + repeat constructor. exact Hv.
    + inversion Hid as [|? ? H0 Hid']; subst. simpl in H0.
      destruct (String.eqb (User.id u) k0) eqn:E.
      * apply String.eqb_eq in E. constructor; [simpl; congruence|exact Hid'].
      * constructor; [exact H0|now apply IH].
Qed.

Lemma INITIAL_USERS_wf : users_wf INITIAL_USERS.
Proof.
  split.
  - simpl. repeat constructor; simpl; intuition discriminate.
  - repeat constructor.
Qed.

(** ** Comparisons of the validation code *)

Lemma Qle_bool_false (x y : Q) : Qle_bool x y = false <-> y < x.
Proof.
  split; intros H.
  - destruct (Qlt_le_dec y x) as [L|L]; [exact L|].
    apply Qle_bool_iff in L. congruence.
  - destruct (Qle_bool x y) eqn:E; [|reflexivity].
    apply Qle_bool_iff in E. lra.
Qed.

Lemma not_positive_check (g : Q) :
  0 < g -> Qeq_bool g 0 || Qle_bool g 0 = false.
Proof.
  intros H. apply orb_false_iff. split.
  - destruct (Qeq_bool g 0) eqn:E; [|reflexivity].
    apply Qeq_bool_iff in E. lra.
  - now apply Qle_bool_false.
Qed.

Lemma positive_check (g : Q) :
  g <= 0 -> Qeq_bool g 0 || Qle_bool g 0 = true.
Proof.
  intros H. apply orb_true_iff. right. now apply Qle_bool_iff.
Qed.

(** ** Transfers *)

Lemma TransferModal_accepts user users recipientIdentifier g recipient :
  recipientIdentifier <> EmptyString ->
  0 < g -> g <= User.goldBalance user ->
  find (TransferModal.matches user recipientIdentifier) (Users.values users)
  = Some recipient ->
  TransferModal.handleTransfer user users recipientIdentifier (Some g)
  = inr (User.id recipient, g).
Proof.
  intros Hr H0 Hle Hf. unfold TransferModal.handleTransfer.
  apply String.eqb_neq in Hr. rewrite Hr. simpl orb.
  rewrite (not_positive_check g H0).
  apply Qle_bool_iff in Hle. rewrite Hle. simpl negb.
  now rewrite Hf.
Qed.

Lemma TransferModal_rejects user users recipientIdentifier g :
  find (TransferModal.matches user recipientIdentifier) (Users.values users) = None
  \/ g <= 0 \/ User.goldBalance user < g ->
  exists message,
    TransferModal.handleTransfer user users recipientIdentifier (Some g) = inl message
    /\ message <> EmptyString.
Proof.
  intros H. unfold TransferModal.handleTransfer.
  destruct (String.eqb recipientIdentifier EmptyString || Qeq_bool g 0 || Qle_bool g 0) eqn:E1.
  { eexists. split; [reflexivity|discriminate]. }
  destruct (negb (Qle_bool g (User.goldBalance user))) eqn:E2.
  { eexists. split; [reflexivity|discriminate]. }
  destruct (find (TransferModal.matches user recipientIdentifier) (Users.values users))
    eqn:E3.
  2:{ eexists. split; [reflexivity|discriminate]. }
  exfalso.
  apply orb_false_iff in E1. destruct E1 as [E1 E1'].
  apply Qle_bool_false in E1'.
  apply negb_false_iff, Qle_bool_iff in E2.
  destruct H as [H | [H | H]]; [discriminate | lra | lra].
Qed.

(** C4. A transfer whose identifier matches no other user, or whose amount
    is not positive, or exceeds the sender's gold, ends with an error
    message in the modal; users and transactions stay as they were. *)
Theorem invalid_transfer_rejected (st : AppState) (sender : User.t)
    (recipientIdentifier : string) (g : Q) (t1 t2 t3 t4 : Z) :
  App.currentUser st = Some sender ->
  find (TransferModal.matches sender recipientIdentifier) (Users.values (users st))
  = None
  \/ g <= 0 \/ User.goldBalance sender < g ->
  (exists message,
      App.run st (App.transfer recipientIdentifier (Some g) t1 t2 t3 t4) = Error message
      /\ message <> EmptyString)
  /\ App.step st (App.transfer recipientIdentifier (Some g) t1 t2 t3 t4) = st.
Proof.
  intros Hcu H.
  destruct (TransferModal_rejects sender (users st) recipientIdentifier g H)
    as [message [E Hm]].
  unfold App.step, App.run. rewrite Hcu, E.
  split; [|reflexivity].
  exists message. now split.
Qed.

Lemma invalid_transfer_rejected_witness :
  App.step (App.handleLogin App.initial "usr_1")
           (App.transfer "fatuma@example.com" (Some 6) 1721900000000 1721900000000
                         1721900000000 1721900000000)
  = App.handleLogin App.initial "usr_1".
Proof.
  apply (invalid_transfer_rejected (App.handleLogin App.initial "usr_1") usr_1).
  - reflexivity.
  - right. right. reflexivity.
Defined.

Lemma TransferModal_inr user users recipientIdentifier amount recipientId g :
  TransferModal.handleTransfer user users recipientIdentifier amount
  = inr (recipientId, g) ->
  amount = Some g
  /\ exists r,
       find (TransferModal.matches user recipientIdentifier) (Users.values users)
       = Some r
       /\ User.id r = recipientId.
Proof.
  unfold TransferModal.handleTransfer. intros H.
  destruct amount as [q|]; [|discriminate].
  destruct (String.eqb recipientIdentifier EmptyString || Qeq_bool q 0 || Qle_bool q 0);
    [discriminate|].
  destruct (negb (Qle_bool q (User.goldBalance user))); [discriminate|].
  destruct (find (TransferModal.matches user recipientIdentifier) (Users.values users))
    as [r|]; [|discriminate].
  injection H as <- <-. split; [reflexivity|].
  exists r. now split.
Qed.

(** ** Transaction ids *)

Lemma last_ascii_app (s t : string) :
  t <> EmptyString -> last_ascii (s ++ t) = last_ascii t.
Proof.
  intros Ht. induction s as [|c s IH]; simpl.
  - reflexivity.
  - destruct (s ++ t)%string eqn:E.
    + destruct s; simpl in E; [contradiction|discriminate].
    + exact IH.
Qed.

Lemma out_id_not_in_id (a b : Z) :
  (tx_id a ++ "_out")%string <> (tx_id b ++ "_in")%string.
Proof.
  intros H. apply (f_equal last_ascii) in H.
  rewrite !last_ascii_app in H by discriminate.
  discriminate.
Qed.

(** C7, as the code has it. A successful transfer adds to the stored
    transactions exactly two records: a [transfer_out] owned by the sender
    and a [transfer_in] owned by the recipient, with different ids, the same
    amount and status [completed]. Both records carry the same names:
    [from] is the sender's name and [to] the recipient's name in each. *)
Theorem transfer_records_linked_pair (st st' : AppState)
    (recipientIdentifier : string) (amount : option Q) (t1 t2 t3 t4 : Z) :
  App.run st (App.transfer recipientIdentifier amount t1 t2 t3 t4) = Done st' ->
  exists sender r recipient g o i,
    App.currentUser st = Some sender
    /\ amount = Some g
    /\ find (TransferModal.matches sender recipientIdentifier)
            (Users.values (users st)) = Some r
    /\ Users.get (User.id r) (users st) = Some recipient
    /\ Permutation (transactions st') (o :: i :: transactions st)
    /\ Transaction.type o = transfer_out
    /\ Transaction.userId o = User.id sender
    /\ Transaction.type i = transfer_in
    /\ Transaction.userId i = User.id recipient
    /\ Transaction.id o <> Transaction.id i
    /\ Transaction.amountGrams o = g
    /\ Transaction.amountGrams i = g
    /\ Transaction.status o = completed
    /\ Transaction.status i = completed
    /\ Transaction.from o = Some (User.name sender)
    /\ Transaction.to o = Some (User.name recipient)
    /\ Transaction.from i = Some (User.name sender)
    /\ Transaction.to i = Some (User.name recipient).
Proof.
  intros H. unfold App.run in H.
  destruct (App.currentUser st) as [cu|] eqn:Hcu; [|discriminate].
  destruct (TransferModal.handleTransfer cu (users st) recipientIdentifier amount)
    as [m|[recipientId g]] eqn:HT; [discriminate|].
  apply TransferModal_inr in HT. destruct HT as [-> [r [Hf <-]]].
  unfold App.handleTransfer in H. rewrite Hcu in H.
  destruct (Users.get (User.id r) (users st)) as [recipient|] eqn:Hg; [|discriminate].
  injection H as <-.
  exists cu, r, recipient, g.
  exists (App.outTx cu recipient g t1 t2), (App.inTx cu recipient g t3 t4).
  cbn [transactions].
  split; [reflexivity|]. split; [reflexivity|].
  split; [exact Hf|]. split; [exact Hg|].
  split.
  { exact (sort_perm (App.outTx cu recipient g t1 t2
                      :: App.inTx cu recipient g t3 t4 :: transactions st)). }
  do 4 (split; [reflexivity|]).
  split; [apply out_id_not_in_id|].
  repeat (split; [reflexivity|]). reflexivity.
Qed.

Lemma transfer_records_linked_pair_witness :
  exists sender r recipient g o i,
    App.currentUser (App.handleLogin App.initial "usr_1") = Some sender
    /\ Some 2 = Some g
    /\ find (TransferModal.matches sender "fatuma@example.com")
            (Users.values INITIAL_USERS) = Some r
    /\ Users.get (User.id r) INITIAL_USERS = Some recipient
    /\ Permutation
         (transactions
            (App.step (App.handleLogin App.initial "usr_1")
               (App.transfer "fatuma@example.com" (Some 2) 1721900000000
                             1721900000001 1721900000001 1721900000002)))
         (o :: i :: INITIAL_TRANSACTIONS)
    /\ Transaction.type o = transfer_out
    /\ Transaction.userId o = User.id sender
    /\ Transaction.type i = transfer_in
    /\ Transaction.userId i = User.id recipient
    /\ Transaction.id o <> Transaction.id i
    /\ Transaction.amountGrams o = g
    /\ Transaction.amountGrams i = g
    /\ Transaction.status o = completed
    /\ Transaction.status i = completed
    /\ Transaction.from o = Some (User.name sender)
    /\ Transaction.to o = Some (User.name recipient)
    /\ Transaction.from i = Some (User.name sender)
    /\ Transaction.to i = Some (User.name recipient).
Proof.
  apply (transfer_records_linked_pair (App.handleLogin App.initial "usr_1") _
           "fatuma@example.com" (Some 2) 1721900000000 1721900000001
           1721900000001 1721900000002).
  reflexivity.
Defined.

(** C7 as stated fails: in the two records of a transfer from Abebe Bikila
    to Fatuma Roba the names are not exchanged; [from] of the outgoing
    record is not [to] of the incoming one. *)
Lemma transfer_names_not_swapped :
  let st := App.handleLogin App.initial "usr_1" in
  let o := App.outTx usr_1 usr_2 2 1721900000000 1721900000001 in
  let i := App.inTx usr_1 usr_2 2 1721900000001 1721900000002 in
  exists st',
    App.run st (App.transfer "fatuma@example.com" (Some 2) 1721900000000
                             1721900000001 1721900000001 1721900000002) = Done st'
    /\ In o (transactions st') /\ In i (transactions st')
    /\ Transaction.type o = transfer_out /\ Transaction.type i = transfer_in
    /\ Transaction.from o = Some "Abebe Bikila"
    /\ Transaction.to i = Some "Fatuma Roba"
    /\ ~ (Transaction.from o = Transaction.to i
          /\ Transaction.to o = Transaction.from i).
Proof.
  eexists. split; [reflexivity|].
  split; [vm_compute; tauto|].
  split; [vm_compute; tauto|].
  repeat (split; [reflexivity|]).
  intros [H _]. discriminate H.
Qed.

(** ** Approvals *)

Lemma Forall2_map_self {A : Type} (R : A -> A -> Prop) (f : A -> A) (l : list A) :
  (forall x, R x (f x)) -> Forall2 R l (map f l).
Proof.
  intros H. induction l; simpl; constructor; auto.
Qed.

Lemma Forall2_self {A : Type} (R : A -> A -> Prop) (l : list A) :
  (forall x, R x x) -> Forall2 R l l.
Proof.
  intros H. induction l; constructor; auto.
Qed.

Lemma same_but_status_refl (t : Transaction.t) : same_but_status t t.
Proof. repeat split. Qed.

(** C9. [handleApproval] leaves the stored transactions in place, one for
    one: a transaction with another id is the same record afterwards, and a
    transaction with the resolved id keeps its id, date, type, amounts,
    names and owner; only its status can differ. *)
Theorem approval_changes_status_only (st : AppState) (txId : string) (action : Action) :
  Forall2 (fun t t' => same_but_status t t' /\ (Transaction.id t <> txId -> t' = t))
          (transactions st)
          (transactions (state_after st (App.handleApproval st txId action))).
Proof.
  destruct (handleApproval_transactions st txId action) as [H|H]; rewrite H.
  - apply Forall2_self. intros t. split; [apply same_but_status_refl|reflexivity].
  - unfold App.updatedTransactions. apply Forall2_map_self. intros t.
    destruct (String.eqb (Transaction.id t) txId) eqn:E.
    + split; [repeat split|].
      apply String.eqb_eq in E. intros Hne. contradiction.
    + split; [apply same_but_status_refl|reflexivity].
Qed.

Lemma handleApproval_reject_users st txId :
  users (state_after st (App.handleApproval st txId reject)) = users st.
Proof.
  unfold App.handleApproval.
  destruct (find _ (transactions st)); reflexivity.
Qed.

Lemma handleApproval_other_type_users st txId tx :
  found st txId = Some tx ->
  Transaction.type tx <> conversion -> Transaction.type tx <> withdrawal ->
  users (state_after st (App.handleApproval st txId approve)) = users st.
Proof.
  unfold found, App.handleApproval. intros -> Hc Hw.
  unfold App.approvedUsers.
  destruct (Transaction.type tx); try reflexivity; contradiction.
Qed.

Lemma not_offered st txId :
  (forall t, In t (transactions st) -> Transaction.id t = txId ->
             Transaction.status t <> pending) ->
  App.offered st txId = false.
Proof.
  intros H. unfold App.offered, AdminDashboard.pendingTransactions.
  destruct (existsb _ _) eqn:E; [|reflexivity].
  apply existsb_exists in E. destruct E as [t [Hin Hid]].
  apply filter_In in Hin. destruct Hin as [Hin Hs].
  apply String.eqb_eq in Hid.
  exfalso. apply (H t Hin Hid).
  destruct (Transaction.status t); simpl in Hs; congruence.
Qed.

(** C2, as the code has it. The approvals table holds the pending
    transactions only: when no pending transaction has the id, the intent
    to resolve it is not available and the state stays as it is.
    [handleApproval] itself checks no status; called with [reject] it leaves
    every user as it was, and so it does with [approve] for a transaction
    that is neither a conversion nor a withdrawal. *)
Theorem terminal_transaction_not_offered (st : AppState) (txId : string)
    (action : Action) :
  (forall t, In t (transactions st) -> Transaction.id t = txId ->
             Transaction.status t <> pending) ->
  App.run st (App.resolveApproval txId action) = Unavailable
  /\ App.step st (App.resolveApproval txId action) = st
  /\ users (state_after st (App.handleApproval st txId reject)) = users st
  /\ (forall tx, found st txId = Some tx ->
                 Transaction.type tx <> conversion ->
                 Transaction.type tx <> withdrawal ->
                 users (state_after st (App.handleApproval st txId approve))
                 = users st).
Proof.
  intros H.
  assert (E : App.run st (App.resolveApproval txId action) = Unavailable).
  { unfold App.run. destruct (App.currentUser st); [|reflexivity].
    rewrite (not_offered st txId H), andb_false_r. reflexivity. }
  split; [exact E|]. split.
  - unfold App.step. now rewrite E.
  - split.
    + apply handleApproval_reject_users.
    + intros tx. apply handleApproval_other_type_users.
Qed.

Lemma terminal_transaction_not_offered_witness :
  App.step (App.handleLogin App.initial "usr_3") (App.resolveApproval "tx_1" approve)
  = App.handleLogin App.initial "usr_3".
Proof.
  apply (terminal_transaction_not_offered (App.handleLogin App.initial "usr_3")
           "tx_1" approve).
  intros t Hin Hid. simpl in Hin.
  repeat (destruct Hin as [<-|Hin]; [first [discriminate Hid | discriminate]|]).
  contradiction.
Defined.

(** C2 as stated fails on [handleApproval]: approving the completed
    conversion [tx_1] of the seeded data once more credits its 2.5 g again,
    and rejecting it turns its status from [completed] into [failed]. *)
Lemma completed_conversion_resolved_again :
  ~ terminal_resolution_is_noop App.initial "tx_1" approve
  /\ ~ terminal_resolution_is_noop App.initial "tx_1" reject.
Proof.
  split; intros H.
  - destruct (H _ eq_refl) as [Hb _]; [discriminate|].
    specialize (Hb "usr_1"). vm_compute in Hb.
    destruct Hb as [Hb _]. discriminate Hb.
  - destruct (H _ eq_refl) as [_ Hs]; [discriminate|].
    vm_compute in Hs. discriminate Hs.
Qed.



(** ** Withdrawals *)




(** ** Balances *)

Lemma nonnegative_get (k : string) (u : User.t) (m : Users.t) :
  balances_nonnegative m -> Users.get k m = Some u ->
  0 <= User.goldBalance u /\ 0 <= User.etbBalance u.
Proof.
  intros H Hg. apply get_some_key in Hg.
  unfold balances_nonnegative in H. rewrite Forall_forall in H.
  exact (H _ Hg).
Qed.

Lemma nonnegative_assign (k : string) (v : User.t) (m : Users.t) :
  balances_nonnegative m ->
  0 <= User.goldBalance v -> 0 <= User.etbBalance v ->
  balances_nonnegative (Users.assign k v m).
Proof.
  unfold balances_nonnegative. intros H Hg He.
  induction m as [|[k0 v0] m IH]; simpl.
  - repeat constructor; assumption.
  - inversion H as [|? ? H0 H']; subst.
    destruct (String.eqb k k0).
    + constructor; [split; assumption|exact H'].
    + constructor; [exact H0|now apply IH].
Qed.

Lemma TransferModal_inr_bounds user users recipientIdentifier amount recipientId g :
  TransferModal.handleTransfer user users recipientIdentifier amount
  = inr (recipientId, g) ->
  0 < g /\ g <= User.goldBalance user.
Proof.
  unfold TransferModal.handleTransfer. intros H.
  destruct amount as [q|]; [|discriminate].
  destruct (String.eqb recipientIdentifier EmptyString || Qeq_bool q 0 || Qle_bool q 0) eqn:E1;
    [discriminate|].
  destruct (negb (Qle_bool q (User.goldBalance user))) eqn:E2; [discriminate|].
  destruct (find _ _); [|discriminate].
  injection H as _ <-.
  apply orb_false_iff in E1. destruct E1 as [_ E1]. apply Qle_bool_false in E1.
  apply negb_false_iff, Qle_bool_iff in E2. now split.
Qed.

Lemma LoanSelfModal_inr u price amount collateralGrams loanETB :
  LoanSelfModal.handleLoan u price amount = inr (collateralGrams, loanETB) ->
  collateralGrams = (loanETB / price) / 0.5
  /\ 0 < loanETB /\ loanETB <= User.goldBalance u * price * 0.5.
Proof.
  unfold LoanSelfModal.handleLoan. intros H.
  destruct amount as [e|]; [|discriminate].
  destruct (Qeq_bool e 0 || Qle_bool e 0) eqn:E1; [discriminate|].
  destruct (negb (Qle_bool e (LoanSelfModal.maxLoanableETB u price))) eqn:E2;
    [discriminate|].
  injection H as <- <-.
  apply orb_false_iff in E1. destruct E1 as [_ E1]. apply Qle_bool_false in E1.
  apply negb_false_iff, Qle_bool_iff in E2.
  repeat split; assumption.
Qed.

Lemma currentUser_get st cu :
  App.currentUser st = Some cu -> exists k, Users.get k (users st) = Some cu.
Proof.
  unfold App.currentUser. intros H.
  destruct (currentUserId st) as [i|]; [|discriminate].
  destruct (String.eqb i EmptyString); [discriminate|]. now exists i.
Qed.

(** A transfer, which debits at request time, checks the balance first:
    no intent other than a loan request and the resolution of an approval
    makes a balance negative. (For a loan the check is made on the rounded
    maximum; see [Binary64Facts].) *)
Lemma requests_keep_balances_nonnegative (st : AppState) (i : App.Intent) :
  balances_nonnegative (users st) ->
  (forall e a b, i <> App.requestLoan e a b) ->
  (forall txId action, i <> App.resolveApproval txId action) ->
  balances_nonnegative (users (App.step st i)).
Proof.
  intros Hnn Hl Hi. unfold App.step.
  destruct i; simpl.
  - unfold App.handleLogin. repeat break_match; simpl; auto.
  - repeat break_match; simpl; auto.
  - unfold App.handleNewTransaction. repeat break_match; simpl; auto.
  - destruct (App.currentUser st) as [cu|] eqn:Hcu; [|exact Hnn].
    destruct (TransferModal.handleTransfer cu (users st) recipientIdentifier amount)
      as [m|[recipientId g]] eqn:HT; [exact Hnn|].
    apply TransferModal_inr_bounds in HT. destruct HT as [H0 Hle].
    unfold App.handleTransfer. rewrite Hcu.
    destruct (Users.get recipientId (users st)) as [recipient|] eqn:Hg; [|exact Hnn].
    cbn [state_after users].
    destruct (currentUser_get _ _ Hcu) as [k Hk].
    destruct (nonnegative_get _ _ _ Hnn Hk) as [Hs1 Hs2].
    destruct (nonnegative_get _ _ _ Hnn Hg) as [Hr1 Hr2].
    apply nonnegative_assign; [|cbn; lra|exact Hr2].
    apply nonnegative_assign; [exact Hnn|cbn; lra|exact Hs2].
  - unfold App.handleWithdraw, App.handleNewTransaction.
    repeat break_match; cbn [state_after users]; auto.
  - exfalso. exact (Hl amountETB now_id now_date eq_refl).
  - exfalso. exact (Hi txId action eq_refl).
  - repeat break_match; simpl; auto.
Qed.

(** C1 fails on the code. The debit of a withdrawal is applied by
    [handleApproval] without a look at the balance: along [overdraw_trace]
    the gold balance of [usr_2] ends at -2 g. *)
Theorem approval_overdraws_gold :
  exists u,
    Users.get "usr_2" (users (App.run_all App.initial overdraw_trace)) = Some u
    /\ User.goldBalance u == -2
    /\ User.goldBalance u < 0.
Proof.
  eexists. split; [reflexivity|]. split; reflexivity.
Qed.

(** ** The users object stays well formed *)

Lemma with_goldBalance_id u g : User.id (User.with_goldBalance u g) = User.id u.
Proof. reflexivity. Qed.

Lemma with_balances_id u g e : User.id (User.with_balances u g e) = User.id u.
Proof. reflexivity. Qed.

Lemma handleApproval_wf st txId action :
  users_wf (users st) ->
  users_wf (users (state_after st (App.handleApproval st txId action))).
Proof.
  intros Hwf. unfold App.handleApproval.
  destruct (find _ (transactions st)) as [tx|]; [|exact Hwf].
  unfold App.approvedUsers.
  destruct action; [|exact Hwf].
  destruct (Transaction.type tx); try exact Hwf;
    destruct (Users.get (Transaction.userId tx) (users st)) as [u|] eqn:Hg;
    try exact Hwf; cbn [state_after users];
    apply (wf_assign u _ _ _ Hwf Hg); reflexivity.
Qed.

Lemma step_wf (st : AppState) (i : App.Intent) :
  users_wf (users st) -> users_wf (users (App.step st i)).
Proof.
  intros Hwf. unfold App.step.
  destruct i; simpl.
  - unfold App.handleLogin. repeat break_match; simpl; auto.
  - repeat break_match; simpl; auto.
  - unfold App.handleNewTransaction. repeat break_match; simpl; auto.
  - destruct (App.currentUser st) as [cu|] eqn:Hcu; [|exact Hwf].
    destruct (TransferModal.handleTransfer cu (users st) recipientIdentifier amount)
      as [m|[recipientId g]]; [exact Hwf|].
    unfold App.handleTransfer. rewrite Hcu.
    destruct (Users.get recipientId (users st)) as [recipient|] eqn:Hg; [|exact Hwf].
    cbn [state_after users].
    destruct (currentUser_get _ _ Hcu) as [k Hk].
    pose proof (wf_assign cu
                  (User.with_goldBalance cu (User.goldBalance cu - g)) _ _ Hwf Hk eq_refl)
      as Hwf1.
    pose proof (wf_get_id _ _ _ Hwf Hk) as Hidk.
    pose proof (wf_get_id _ _ _ Hwf Hg) as Hidr.
    destruct (String.eqb recipientId (User.id cu)) eqn:E.
    + apply String.eqb_eq in E.
      assert (recipient = cu) by congruence. subst recipient.
      exact (wf_assign (User.with_goldBalance cu (User.goldBalance cu - g))
               (User.with_goldBalance cu (User.goldBalance cu + g))
               (User.id cu) _ Hwf1 (get_assign_same _ _ _) eq_refl).
    + apply String.eqb_neq in E.
      eapply wf_assign with (k := recipientId); [exact Hwf1| |reflexivity].
      rewrite get_assign_other by exact E. exact Hg.
  - unfold App.handleWithdraw, App.handleNewTransaction.
    repeat break_match; cbn [state_after users]; auto.
  - destruct (App.currentUser st) as [cu|] eqn:Hcu; [|exact Hwf].
    destruct (LoanSelfModal.handleLoan cu (livePrice st) amountETB)
      as [m|[collateralGrams loanETB]]; [exact Hwf|].
    unfold App.handleLoan. rewrite Hcu. cbn [state_after users].
    destruct (currentUser_get _ _ Hcu) as [k Hk].
    apply (wf_assign cu _ _ _ Hwf Hk). reflexivity.
  - repeat break_match; cbn [state_after]; auto.
    now apply handleApproval_wf.
  - repeat break_match; simpl; auto.
Qed.

(** Every state reached from the seeded one has a well-formed users
    object. *)
Lemma run_all_wf (l : list App.Intent) (st : AppState) :
  users_wf (users st) -> users_wf (users (App.run_all st l)).
Proof.
  revert st. induction l as [|i l IH]; intros st H; simpl.
  - exact H.
  - apply IH. now apply step_wf.
Qed.

(** ** The admin console *)

(** For an administrator, the buttons of a listed transaction call
    [handleApproval] with its id. *)
Lemma admin_resolves (st : AppState) (administrator : User.t) (txId : string)
    (action : Action) :
  App.currentUser st = Some administrator ->
  User.role administrator = admin ->
  App.offered st txId = true ->
  App.run st (App.resolveApproval txId action) = App.handleApproval st txId action.
Proof.
  intros Hcu Hrole Hoff. unfold App.run. now rewrite Hcu, Hrole, Hoff.
Qed.

(** The overdraft that the specification describes: two requests of 5 g
    against 5.75 g, both approved, leave -4.25 g. *)
Example double_withdrawal_overdraws :
  exists u,
    Users.get "usr_1" (users (App.run_all App.initial double_withdrawal_trace)) = Some u
    /\ User.goldBalance u == -4.25.
Proof.
  eexists. split; reflexivity.
Qed.

(** * Further properties of the ledger *)

(** ** What an intent does to the users, case by case *)

Lemma handleApproval_users_cases st txId action :
  users (state_after st (App.handleApproval st txId action)) = users st
  \/ exists tx u g,
       found st txId = Some tx
       /\ action = approve
       /\ Users.get (Transaction.userId tx) (users st) = Some u
       /\ (Transaction.type tx = conversion
           /\ g = User.goldBalance u + Transaction.amountGrams tx
           \/ Transaction.type tx = withdrawal
              /\ g = User.goldBalance u - Transaction.amountGrams tx)
       /\ users (state_after st (App.handleApproval st txId action))
          = Users.assign (User.id u) (User.with_goldBalance u g) (users st).
Proof.
  unfold App.handleApproval, found.
  destruct (find _ (transactions st)) as [tx|] eqn:Hf; [|now left].
  unfold App.approvedUsers.
  destruct action; [|now left].
  destruct (Transaction.type tx) eqn:Ht; try (now left);
    destruct (Users.get (Transaction.userId tx) (users st)) as [u|] eqn:Hg;
    try (now left); right; exists tx, u; eexists;
    (split; [reflexivity|]); (split; [reflexivity|]); (split; [exact Hg|]);
    (split; [|reflexivity]); [left|right]; (split; [exact Ht|reflexivity]).
Qed.

Lemma step_users_cases (st : AppState) (i : App.Intent) :
  users (App.step st i) = users st
  \/ (exists cu recipientId recipient g,
         App.currentUser st = Some cu
         /\ recipientId <> User.id cu
         /\ Users.get recipientId (users st) = Some recipient
         /\ 0 < g /\ g <= User.goldBalance cu
         /\ users (App.step st i)
            = Users.assign (User.id recipient)
                (User.with_goldBalance recipient (User.goldBalance recipient + g))
                (Users.assign (User.id cu)
                   (User.with_goldBalance cu (User.goldBalance cu - g)) (users st)))
  \/ (exists cu e a b,
         i = App.requestLoan (Some e) a b
         /\ App.currentUser st = Some cu
         /\ 0 < e /\ e <= User.goldBalance cu * livePrice st * 0.5
         /\ users (App.step st i)
            = Users.assign (User.id cu)
                (User.with_balances cu
                   (User.goldBalance cu - (e / livePrice st) / 0.5)
                   (User.etbBalance cu + e * (1 - LOAN_COMMISSION_RATE)))
                (users st))
  \/ (exists txId tx u g,
         i = App.resolveApproval txId approve
         /\ found st txId = Some tx
         /\ Users.get (Transaction.userId tx) (users st) = Some u
         /\ (Transaction.type tx = conversion
             /\ g = User.goldBalance u + Transaction.amountGrams tx
             \/ Transaction.type tx = withdrawal
                /\ g = User.goldBalance u - Transaction.amountGrams tx)
         /\ users (App.step st i)
            = Users.assign (User.id u) (User.with_goldBalance u g) (users st)).
Proof.
  unfold App.step.
  destruct i; simpl.
  - left. unfold App.handleLogin. repeat break_match; reflexivity.
  - left. repeat break_match; reflexivity.
  - left. unfold App.handleNewTransaction. repeat break_match; reflexivity.
  - destruct (App.currentUser st) as [cu|] eqn:Hcu; [|now left].
    destruct (TransferModal.handleTransfer cu (users st) recipientIdentifier amount)
      as [m|[recipientId g]] eqn:HT; [now left|].
    pose proof (TransferModal_inr _ _ _ _ _ _ HT) as [_ [r0 [Hf0 Hr0]]].
    apply find_some in Hf0. destruct Hf0 as [_ Hm0].
    apply andb_true_iff in Hm0. destruct Hm0 as [_ Hm0].
    apply negb_true_iff, String.eqb_neq in Hm0. rewrite Hr0 in Hm0.
    apply TransferModal_inr_bounds in HT. destruct HT as [H0 Hle].
    unfold App.handleTransfer. rewrite Hcu.
    destruct (Users.get recipientId (users st)) as [recipient|] eqn:Hg; [|now left].
    right. left. exists cu, recipientId, recipient, g.
    split; [reflexivity|]. split; [exact Hm0|]. split; [exact Hg|].
    split; [exact H0|]. split; [exact Hle|]. reflexivity.
  - left. unfold App.handleWithdraw, App.handleNewTransaction.
    repeat break_match; reflexivity.
  - destruct (App.currentUser st) as [cu|] eqn:Hcu; [|now left].
    destruct (LoanSelfModal.handleLoan cu (livePrice st) amountETB)
      as [m|[collateralGrams loanETB]] eqn:HL; [now left|].
    pose proof HL as HL'. apply LoanSelfModal_inr in HL'. destruct HL' as [-> [H0 Hle]].
    assert (amountETB = Some loanETB) as ->.
    { unfold LoanSelfModal.handleLoan in HL.
      destruct amountETB as [e|]; [|discriminate].
      repeat break_match_hyp; try discriminate.
      apply (f_equal (fun r : string + Q * Q =>
                        match r with inr (_, x) => Some x | inl _ => None end)) in HL.
      exact HL. }
    right. right. left. exists cu, loanETB, now_id, now_date.
    split; [reflexivity|]. split; [reflexivity|].
    split; [exact H0|]. split; [exact Hle|].
    unfold App.handleLoan. rewrite Hcu. reflexivity.
  - destruct (App.currentUser st) as [cu|]; [|now left].
    destruct (Role_eqb (User.role cu) admin && App.offered st txId); [|now left].
    destruct (handleApproval_users_cases st txId action)
      as [H | [tx [u [g [Hf [-> [Hg [Ht H]]]]]]]]; [now left|].
    right. right. right. exists txId, tx, u, g.
    split; [reflexivity|]. split; [exact Hf|]. split; [exact Hg|].
    split; [exact Ht|]. exact H.
  - left. repeat break_match; reflexivity.
Qed.

(** ** Users are neither created nor deleted, and keep their identity *)

Lemma same_but_balances_refl u : same_but_balances u u.
Proof. repeat split. Qed.

Lemma same_but_balances_trans u v w :
  same_but_balances u v -> same_but_balances v w -> same_but_balances u w.
Proof.
  unfold same_but_balances. intros H1 H2.
  repeat match goal with H : _ /\ _ |- _ => destruct H end.
  repeat split; congruence.
Qed.

Lemma same_entry_refl kv : same_entry kv kv.
Proof. split; [reflexivity|apply same_but_balances_refl]. Qed.

Lemma Forall2_same_entry_trans (a b c : Users.t) :
  Forall2 same_entry a b -> Forall2 same_entry b c -> Forall2 same_entry a c.
Proof.
  intros H. revert c. induction H as [|x y a b Hxy Hab IH]; intros c Hbc.
  - inversion Hbc. constructor.
  - inversion Hbc as [|? z ? c' Hyz Hbc']; subst. constructor.
    + destruct Hxy as [K1 S1], Hyz as [K2 S2]. split; [congruence|].
      eapply same_but_balances_trans; eassumption.
    + now apply IH.
Qed.

Lemma assign_same_entry (m : Users.t) (k : string) (u v : User.t) :
  Users.get k m = Some u -> same_but_balances u v ->
  Forall2 same_entry m (Users.assign k v m).
Proof.
  intros Hg Hs. induction m as [|[k0 v0] m IH]; simpl in *.
  - discriminate.
  - destruct (String.eqb k k0) eqn:E.
    + injection Hg as ->. constructor.
      * split; [reflexivity|exact Hs].
      * apply Forall2_self. apply same_entry_refl.
    + constructor; [apply same_entry_refl|now apply IH].
Qed.

Lemma currentUser_get_id st cu :
  users_wf (users st) -> App.currentUser st = Some cu ->
  Users.get (User.id cu) (users st) = Some cu.
Proof.
  intros Hwf Hcu. destruct (currentUser_get _ _ Hcu) as [k Hk].
  now rewrite (wf_get_id _ _ _ Hwf Hk).
Qed.

Lemma step_users_shape (st : AppState) (i : App.Intent) :
  users_wf (users st) -> Forall2 same_entry (users st) (users (App.step st i)).
Proof.
  intros Hwf.
  destruct (step_users_cases st i)
    as [E | [[cu [rid [r [g [Hcu [_ [Hg [_ [_ E]]]]]]]]]
       | [[cu [e [a [b [_ [Hcu [_ [_ E]]]]]]]]
       | [txId [tx [u [g [_ [_ [Hg [_ E]]]]]]]]]]]; rewrite E.
  - apply Forall2_self. apply same_entry_refl.
  - pose proof (currentUser_get_id _ _ Hwf Hcu) as Hk.
    pose proof (wf_get_id _ _ _ Hwf Hg) as Hidr.
    apply Forall2_same_entry_trans
      with (b := Users.assign (User.id cu)
                   (User.with_goldBalance cu (User.goldBalance cu - g)) (users st)).
    + eapply assign_same_entry with (u := cu); [exact Hk|repeat split].
    + destruct (String.eqb rid (User.id cu)) eqn:Eq.
      * apply String.eqb_eq in Eq.
        assert (r = cu) by congruence. subst r.
        eapply assign_same_entry
          with (u := User.with_goldBalance cu (User.goldBalance cu - g));
          [apply get_assign_same|repeat split].
      * apply String.eqb_neq in Eq.
        eapply assign_same_entry with (u := r); [|repeat split].
        rewrite get_assign_other by congruence. congruence.
  - pose proof (currentUser_get_id _ _ Hwf Hcu) as Hk.
    eapply assign_same_entry with (u := cu); [exact Hk|repeat split].
  - pose proof (wf_get_id _ _ _ Hwf Hg) as Hid.
    eapply assign_same_entry with (u := u); [congruence|repeat split].
Qed.

Lemma run_all_users_shape (l : list App.Intent) (st : AppState) :
  users_wf (users st) -> Forall2 same_entry (users st) (users (App.run_all st l)).
Proof.
  revert st. induction l as [|i l IH]; intros st Hwf; simpl.
  - apply Forall2_self. apply same_entry_refl.
  - eapply Forall2_same_entry_trans.
    + apply step_users_shape. exact Hwf.
    + apply IH. now apply step_wf.
Qed.

Lemma same_entry_keys (a b : Users.t) :
  Forall2 same_entry a b -> Users.keys b = Users.keys a.
Proof.
  induction 1 as [|x y a b [K _] _ IH]; simpl; [reflexivity|].
  now rewrite K, IH.
Qed.

(** X1. Whatever the users do, the users object keeps its keys in their
    order, and the record under a key changes at most in its gold and cash
    balance: no user is created, deleted, renamed or given another role. *)
Theorem users_keep_identity (st : AppState) (l : list App.Intent) :
  users_wf (users st) ->
  Users.keys (users (App.run_all st l)) = Users.keys (users st)
  /\ Forall2 same_entry (users st) (users (App.run_all st l)).
Proof.
  intros Hwf. pose proof (run_all_users_shape l st Hwf) as H.
  split; [now apply same_entry_keys|exact H].
Qed.

Lemma users_keep_identity_witness :
  Users.keys (users (App.run_all App.initial overdraw_trace))
  = ["usr_1"; "usr_2"; "usr_3"]%string.
Proof.
  exact (proj1 (users_keep_identity App.initial overdraw_trace INITIAL_USERS_wf)).
Defined.

(** ** Cash *)

Lemma assign_Forall2 (R : string * User.t -> string * User.t -> Prop)
    (m : Users.t) (k : string) (u v : User.t) :
  (forall kv, R kv kv) ->
  Users.get k m = Some u ->
  (forall k0, R (k0, u) (k0, v)) ->
  Forall2 R m (Users.assign k v m).
Proof.
  intros Hrefl Hg Hs. induction m as [|[k0 v0] m IH]; simpl in *.
  - discriminate.
  - destruct (String.eqb k k0) eqn:E.
    + injection Hg as ->. constructor; [apply Hs|now apply Forall2_self].
    + constructor; [apply Hrefl|now apply IH].
Qed.

Lemma Forall2_trans_gen {A : Type} (R : A -> A -> Prop) (a b c : list A) :
  (forall x y z, R x y -> R y z -> R x z) ->
  Forall2 R a b -> Forall2 R b c -> Forall2 R a c.
Proof.
  intros Ht H. revert c. induction H as [|x y a b Hxy Hab IH]; intros c Hbc.
  - inversion Hbc. constructor.
  - inversion Hbc as [|? z ? c' Hyz Hbc']; subst. constructor; eauto.
Qed.

(** X2. Only a loan changes a cash balance: after any other intent every
    user holds the ETB it held before. *)
Theorem cash_changes_only_by_loan (st : AppState) (i : App.Intent) :
  users_wf (users st) ->
  (forall e a b, i <> App.requestLoan e a b) ->
  Forall2 (fun kv kv' => fst kv' = fst kv
                         /\ User.etbBalance (snd kv') = User.etbBalance (snd kv))
          (users st) (users (App.step st i)).
Proof.
  intros Hwf Hi.
  set (R := fun kv kv' : string * User.t =>
              fst kv' = fst kv
              /\ User.etbBalance (snd kv') = User.etbBalance (snd kv)).
  assert (Hrefl : forall kv, R kv kv) by (intros kv; split; reflexivity).
  destruct (step_users_cases st i)
    as [E | [[cu [rid [r [g [Hcu [Hne [Hg [_ [_ E]]]]]]]]]
       | [[cu [e [a [b [Hl _]]]]]
       | [txId [tx [u [g [_ [_ [Hg [_ E]]]]]]]]]]].
  - rewrite E. now apply Forall2_self.
  - rewrite E.
    pose proof (currentUser_get_id _ _ Hwf Hcu) as Hk.
    pose proof (wf_get_id _ _ _ Hwf Hg) as Hidr.
    apply Forall2_trans_gen
      with (b := Users.assign (User.id cu)
                   (User.with_goldBalance cu (User.goldBalance cu - g)) (users st)).
    + intros x y z [K1 B1] [K2 B2]. split; congruence.
    + eapply assign_Forall2 with (u := cu); [exact Hrefl|exact Hk|].
      intros k0. split; reflexivity.
    + eapply assign_Forall2 with (u := r); [exact Hrefl| |].
      * rewrite get_assign_other by congruence. congruence.
      * intros k0. split; reflexivity.
  - exfalso. exact (Hi _ _ _ Hl).
  - rewrite E. pose proof (wf_get_id _ _ _ Hwf Hg) as Hid.
    eapply assign_Forall2 with (u := u); [exact Hrefl|congruence|].
    intros k0. split; reflexivity.
Qed.

Lemma cash_changes_only_by_loan_witness :
  Forall2 (fun kv kv' => fst kv' = fst kv
                         /\ User.etbBalance (snd kv') = User.etbBalance (snd kv))
          INITIAL_USERS
          (users (App.step (App.handleLogin App.initial "usr_1")
                    (App.transfer "fatuma@example.com" (Some 2) 1721900000000
                                  1721900000000 1721900000000 1721900000000))).
Proof.
  apply (cash_changes_only_by_loan (App.handleLogin App.initial "usr_1")).
  - exact INITIAL_USERS_wf.
  - intros e a b H. discriminate H.
Defined.

(** ** What an intent does to the transactions, case by case *)

Lemma step_transactions_cases (st : AppState) (i : App.Intent) :
  transactions (App.step st i) = transactions st
  \/ (exists news,
         transactions (App.step st i) = sort (news ++ transactions st)
         /\ Forall (fun t => exists k u, Users.get k (users st) = Some u
                                         /\ Transaction.userId t = User.id u) news)
  \/ (exists txId action,
         i = App.resolveApproval txId action
         /\ App.offered st txId = true
         /\ transactions (App.step st i)
            = App.updatedTransactions (transactions st) txId action).
Proof.
  unfold App.step.
  destruct i; simpl.
  - left. unfold App.handleLogin. repeat break_match; reflexivity.
  - left. repeat break_match; reflexivity.
  - destruct (App.currentUser st) as [cu|] eqn:Hcu; [|now left].
    destruct (ManualPayment.handleManualPaymentConfirm _) as [tx|]; [|now left].
    right. left. exists [App.newTransaction cu tx now_id now_date].
    unfold App.handleNewTransaction. rewrite Hcu. split; [reflexivity|].
    destruct (currentUser_get _ _ Hcu) as [k Hk].
    constructor; [|constructor]. now exists k, cu.
  - destruct (App.currentUser st) as [cu|] eqn:Hcu; [|now left].
    destruct (TransferModal.handleTransfer cu (users st) recipientIdentifier amount)
      as [m|[recipientId g]]; [now left|].
    unfold App.handleTransfer. rewrite Hcu.
    destruct (Users.get recipientId (users st)) as [recipient|] eqn:Hg; [|now left].
    right. left.
    exists [App.outTx cu recipient g t1 t2; App.inTx cu recipient g t3 t4].
    split; [reflexivity|].
    destruct (currentUser_get _ _ Hcu) as [k Hk].
    constructor; [now exists k, cu|].
    constructor; [now exists recipientId, recipient|constructor].
  - destruct (App.currentUser st) as [cu|] eqn:Hcu; [|now left].
    destruct (WithdrawModal.handleWithdraw cu amount) as [m|g]; [now left|].
    right. left.
    exists [App.newTransaction cu (mkInput withdrawal g None pending) now_id now_date].
    unfold App.handleWithdraw, App.handleNewTransaction. rewrite Hcu.
    split; [reflexivity|].
    destruct (currentUser_get _ _ Hcu) as [k Hk].
    constructor; [|constructor]. now exists k, cu.
  - destruct (App.currentUser st) as [cu|] eqn:Hcu; [|now left].
    destruct (LoanSelfModal.handleLoan cu (livePrice st) amountETB)
      as [m|[collateralGrams loanETB]]; [now left|].
    right. left.
    exists [App.newTransaction cu (mkInput loan collateralGrams (Some loanETB) completed)
              now_id now_date].
    unfold App.handleLoan. rewrite Hcu. split; [reflexivity|].
    destruct (currentUser_get _ _ Hcu) as [k Hk].
    constructor; [|constructor]. now exists k, cu.
  - destruct (App.currentUser st) as [cu|]; [|now left].
    destruct (Role_eqb (User.role cu) admin) eqn:Hr; [|now left].
    destruct (App.offered st txId) eqn:Ho; [|now left].
    cbn [andb].
    destruct (handleApproval_transactions st txId action) as [H|H]; [now left|].
    right. right. exists txId, action. now repeat split.
  - left. repeat break_match; reflexivity.
Qed.

(** ** Transactions are never removed *)

Lemma same_but_status_trans a b c :
  same_but_status a b -> same_but_status b c -> same_but_status a c.
Proof.
  unfold same_but_status. intros H1 H2.
  repeat match goal with H : _ /\ _ |- _ => destruct H end.
  repeat split; congruence.
Qed.

Lemma step_keeps_transactions (st : AppState) (i : App.Intent) (t : Transaction.t) :
  In t (transactions st) ->
  exists t', In t' (transactions (App.step st i)) /\ same_but_status t t'.
Proof.
  intros Hin.
  destruct (step_transactions_cases st i)
    as [E | [[news [E _]] | [txId [action [_ [_ E]]]]]]; rewrite E.
  - exists t. split; [exact Hin|apply same_but_status_refl].
  - exists t. split; [|apply same_but_status_refl].
    apply (Permutation_in _ (Permutation_sym (sort_perm _))).
    apply in_or_app. now right.
  - unfold App.updatedTransactions.
    eexists. split; [apply in_map; exact Hin|].
    destruct (String.eqb (Transaction.id t) txId);
      [repeat split|apply same_but_status_refl].
Qed.

Lemma run_all_keeps_transactions (l : list App.Intent) (st : AppState)
    (t : Transaction.t) :
  In t (transactions st) ->
  exists t', In t' (transactions (App.run_all st l)) /\ same_but_status t t'.
Proof.
  revert st t. induction l as [|i l IH]; intros st t Hin; simpl.
  - exists t. split; [exact Hin|apply same_but_status_refl].
  - destruct (step_keeps_transactions st i t Hin) as [t1 [Hin1 Hs1]].
    destruct (IH _ _ Hin1) as [t2 [Hin2 Hs2]].
    exists t2. split; [exact Hin2|].
    eapply same_but_status_trans; eassumption.
Qed.

(** A purchase among the intents is the timer that fires in the state of
    its click. *)
Lemma submitPurchase_is_purchaseTimer (st : AppState) (cu : User.t)
    (etb grams : option Q) (now_id now_date : Z) :
  App.currentUser st = Some cu ->
  App.run st (App.submitPurchase etb grams now_id now_date)
  = Done (App.purchaseTimer st st (BuyGoldForm.handleBuyGold etb grams)
                            now_id now_date).
Proof.
  intros Hcu. unfold App.run, App.purchaseTimer, App.handleNewTransaction.
  rewrite Hcu.
  destruct (ManualPayment.handleManualPaymentConfirm _);
    [destruct st|]; reflexivity.
Qed.

(** What the timer of a purchase stores. *)
Lemma purchaseTimer_transactions (clicked st : AppState) (cu : User.t)
    (etb grams : Q) (now_id now_date : Z) :
  App.currentUser clicked = Some cu ->
  transactions (App.purchaseTimer clicked st (Some (etb, grams)) now_id now_date)
  = sort (App.newTransaction cu (mkInput conversion grams (Some etb) pending)
                             now_id now_date
          :: transactions clicked).
Proof.
  intros Hcu. unfold App.purchaseTimer. cbn [ManualPayment.handleManualPaymentConfirm].
  now rewrite Hcu.
Qed.

(** X4. Which transactions stay stored. No intent other than a purchase
    removes a stored transaction or rewrites anything of it but its status:
    over any sequence of such intents each transaction of a state is found,
    with the same id, date, type, amounts, names and owner, in the state
    reached. The timer of a purchase keeps a stored transaction that was
    stored already when the payment was confirmed; one that was stored since
    is dropped, the timer writing the new request in front of the
    transactions of the confirmation. *)
Theorem transactions_removed_only_by_a_late_purchase
    (clicked st : AppState) (l : list App.Intent)
    (paymentDetails : BuyGoldForm.PaymentDetails) (now_id now_date : Z)
    (t : Transaction.t) :
  In t (transactions st) ->
  (Forall (fun i => App.is_purchase i = false) l ->
   exists t', In t' (transactions (App.run_all st l)) /\ same_but_status t t')
  /\ (In t (transactions clicked) ->
      In t (transactions
              (App.purchaseTimer clicked st paymentDetails now_id now_date)))
  /\ (forall cu etb grams,
         App.currentUser clicked = Some cu ->
         paymentDetails = Some (etb, grams) ->
         ~ In t (transactions clicked) ->
         t <> App.newTransaction cu (mkInput conversion grams (Some etb) pending)
                                 now_id now_date ->
         ~ In t (transactions
                   (App.purchaseTimer clicked st paymentDetails now_id now_date))).
Proof.
  intros Hin. split; [|split].
  - intros _. now apply run_all_keeps_transactions.
  - intros Hc. unfold App.purchaseTimer.
    destruct (ManualPayment.handleManualPaymentConfirm paymentDetails); [|exact Hin].
    destruct (App.currentUser clicked); [|exact Hin].
    cbn [transactions].
    apply (Permutation_in _ (Permutation_sym (sort_perm _))). now right.
  - intros cu etb grams Hcu -> Hc Hnew H.
    rewrite (purchaseTimer_transactions _ _ _ _ _ _ _ Hcu) in H.
    apply (Permutation_in _ (sort_perm _)) in H.
    destruct H as [H|H]; [now apply Hnew|now apply Hc].
Qed.

Lemma transactions_removed_only_by_a_late_purchase_witness :
  In (App.outTx usr_1 usr_2 1 1721900000000 1721900000000)
     (transactions transfer_before_timer)
  /\ ~ In (App.outTx usr_1 usr_2 1 1721900000000 1721900000000)
          (transactions
             (App.purchaseTimer payment_confirmed transfer_before_timer
                                (Some (7950.25, 1)) 1721900002000 1721900002000))
  /\ In (App.outTx usr_1 usr_2 1 1721900000000 1721900000000)
        (transactions
           (App.run_all transfer_before_timer
              [ App.requestWithdrawal (Some 1) 1721900002000 1721900002000 ])).
Proof.
  assert (Hin : In (App.outTx usr_1 usr_2 1 1721900000000 1721900000000)
                   (transactions transfer_before_timer)).
  { vm_compute. tauto. }
  destruct (transactions_removed_only_by_a_late_purchase
              payment_confirmed transfer_before_timer
              [ App.requestWithdrawal (Some 1) 1721900002000 1721900002000 ]
              (Some (7950.25, 1)) 1721900002000 1721900002000 _ Hin)
    as [Hkept [_ Hdropped]].
  split; [exact Hin|]. split.
  - apply (Hdropped usr_1 7950.25 1); [reflexivity|reflexivity| |discriminate].
    vm_compute. intuition discriminate.
  - destruct Hkept as [t' [Hin' Hs]]; [repeat constructor|].
    vm_compute in Hin'. vm_compute.
    intuition (subst; auto).
Defined.

(** ** Completed and failed transactions stay as they are *)

Lemma NoDup_map_eq {A B : Type} (f : A -> B) (l : list A) (x y : A) :
  NoDup (map f l) -> In x l -> In y l -> f x = f y -> x = y.
Proof.
  induction l as [|a l IH]; simpl; intros Hnd Hx Hy Hf.
  - contradiction.
  - inversion Hnd as [|? ? Hna Hnd']; subst.
    destruct Hx as [->|Hx], Hy as [->|Hy].
    + reflexivity.
    + exfalso. apply Hna. rewrite Hf. now apply in_map.
    + exfalso. apply Hna. rewrite <- Hf. now apply in_map.
    + now apply IH.
Qed.

Lemma offered_pending st txId :
  App.offered st txId = true ->
  exists p, In p (transactions st)
            /\ Transaction.id p = txId /\ Transaction.status p = pending.
Proof.
  unfold App.offered, AdminDashboard.pendingTransactions. intros H.
  apply existsb_exists in H. destruct H as [p [Hin Hid]].
  apply filter_In in Hin. destruct Hin as [Hin Hs].
  apply String.eqb_eq in Hid.
  exists p. repeat split; try assumption.
  destruct (Transaction.status p); simpl in Hs; congruence.
Qed.

(** X5. While ids are unique, a transaction that is completed or failed
    is not touched by any intent other than a purchase: it is stored, as the
    same record, in the next state. (What the timer of a purchase keeps is
    the subject of the previous theorem.) *)
Theorem terminal_transactions_are_final (st : AppState) (i : App.Intent)
    (t : Transaction.t) :
  unique_ids st ->
  App.is_purchase i = false ->
  In t (transactions st) ->
  Transaction.status t <> pending ->
  In t (transactions (App.step st i)).
Proof.
  intros Hu _ Hin Hs.
  destruct (step_transactions_cases st i)
    as [E | [[news [E _]] | [txId [action [_ [Ho E]]]]]]; rewrite E.
  - exact Hin.
  - apply (Permutation_in _ (Permutation_sym (sort_perm _))).
    apply in_or_app. now right.
  - destruct (offered_pending _ _ Ho) as [p [Hp [Hid Hpend]]].
    assert (Hne : Transaction.id t <> txId).
    { intros Heq. apply Hs.
      rewrite (NoDup_map_eq Transaction.id _ t p Hu Hin Hp); [exact Hpend|congruence]. }
    apply String.eqb_neq in Hne.
    unfold App.updatedTransactions. apply in_map_iff.
    exists t. split; [now rewrite Hne|exact Hin].
Qed.

Lemma terminal_transactions_are_final_witness :
  In (Transaction.mk "tx_4" 1721466000000 loan 1.5 (Some 5887.5)
                     None None completed "usr_2")
     (transactions (App.step (App.handleLogin App.initial "usr_3")
                      (App.resolveApproval "tx_7" reject))).
Proof.
  apply terminal_transactions_are_final.
  - unfold unique_ids. simpl.
    repeat constructor; simpl; intuition discriminate.
  - reflexivity.
  - simpl. tauto.
  - discriminate.
Defined.

(** ** A resolved transaction leaves the approvals table *)

Lemma offered_false_iff st txId :
  App.offered st txId = false <->
  forall t, In t (transactions st) -> Transaction.id t = txId ->
            Transaction.status t <> pending.
Proof.
  split.
  - intros H t Hin Hid Hs.
    unfold App.offered, AdminDashboard.pendingTransactions in H.
    assert (E : existsb (fun tx => String.eqb (Transaction.id tx) txId)
                  (filter (fun tx => Status_eqb (Transaction.status tx) pending)
                          (transactions st)) = true).
    { apply existsb_exists. exists t. split.
      - apply filter_In. split; [exact Hin|]. now rewrite Hs.
      - now apply String.eqb_eq. }
    congruence.
  - apply not_offered.
Qed.

Lemma resolved_not_pending action : App.resolved action <> pending.
Proof. destruct action; discriminate. Qed.

Lemma updated_offers_others (l : list Transaction.t) (txId other : string)
    (action : Action) :
  other <> txId ->
  existsb (fun tx => String.eqb (Transaction.id tx) other)
          (AdminDashboard.pendingTransactions (App.updatedTransactions l txId action))
  = existsb (fun tx => String.eqb (Transaction.id tx) other)
            (AdminDashboard.pendingTransactions l).
Proof.
  intros Hne. unfold AdminDashboard.pendingTransactions, App.updatedTransactions.
  induction l as [|t l IH]; simpl; [reflexivity|].
  destruct (String.eqb (Transaction.id t) txId) eqn:Eq.
  - apply String.eqb_eq in Eq. simpl.
    assert (Eo : String.eqb (Transaction.id t) other = false).
    { apply String.eqb_neq. congruence. }
    destruct (Status_eqb (App.resolved action) pending);
      destruct (Status_eqb (Transaction.status t) pending);
      simpl; rewrite ?Eo; simpl; exact IH.
  - destruct (Status_eqb (Transaction.status t) pending); simpl; now rewrite IH.
Qed.

Lemma updated_not_offered st st' txId action :
  transactions st' = App.updatedTransactions (transactions st) txId action ->
  App.offered st' txId = false
  /\ forall other, other <> txId -> App.offered st' other = App.offered st other.
Proof.
  intros E. split.
  - apply offered_false_iff. intros t Hin Hid. rewrite E in Hin.
    unfold App.updatedTransactions in Hin. apply in_map_iff in Hin.
    destruct Hin as [t0 [Ht0 _]].
    destruct (String.eqb (Transaction.id t0) txId) eqn:Eq; subst t.
    + simpl. apply resolved_not_pending.
    + simpl in Hid. apply String.eqb_neq in Eq. contradiction.
  - intros other Hne. unfold App.offered. rewrite E.
    now apply updated_offers_others.
Qed.

(** X6. Once [handleApproval] has returned for an id, no transaction with
    that id is pending: the approvals table has no row for it any more, the
    intent to resolve it again is unavailable, and the rows of the other
    ids are the ones that were there. *)
Theorem resolved_id_leaves_the_table (st st' : AppState) (txId : string)
    (action : Action) :
  App.handleApproval st txId action = Done st' ->
  App.offered st' txId = false
  /\ (forall again, App.run st' (App.resolveApproval txId again) = Unavailable)
  /\ (forall other, other <> txId -> App.offered st' other = App.offered st other).
Proof.
  intros H.
  assert (Hcases :
            (st' = st /\ found st txId = None)
            \/ transactions st' = App.updatedTransactions (transactions st) txId action).
  { unfold App.handleApproval in H. unfold found.
    destruct (find _ (transactions st)) as [tx|] eqn:Hf.
    - right. destruct (App.approvedUsers (users st) tx action); [|discriminate].
      injection H as <-. reflexivity.
    - left. injection H as <-. now split. }
  assert (Hoff : App.offered st' txId = false
                 /\ forall other, other <> txId ->
                                  App.offered st' other = App.offered st other).
  { destruct Hcases as [[-> Hnone] | E].
    - split; [|reflexivity].
      apply offered_false_iff. intros t Hin Hid _.
      unfold found in Hnone. pose proof (find_none _ _ Hnone _ Hin) as Hf.
      simpl in Hf. apply String.eqb_neq in Hf. contradiction.
    - now apply updated_not_offered with (st := st) (action := action). }
  destruct Hoff as [Hoff Hother].
  split; [exact Hoff|]. split; [|exact Hother].
  intros again. unfold App.run.
  destruct (App.currentUser st'); [|reflexivity].
  now rewrite Hoff, andb_false_r.
Qed.

Lemma resolved_id_leaves_the_table_witness :
  exists st',
    App.handleApproval (App.handleLogin App.initial "usr_3") "tx_7" approve = Done st'
    /\ App.run st' (App.resolveApproval "tx_7" approve) = Unavailable
    /\ App.offered st' "tx_5" = true.
Proof.
  eexists. split; [reflexivity|].
  destruct (resolved_id_leaves_the_table (App.handleLogin App.initial "usr_3") _
              "tx_7" approve eq_refl) as [_ [Hrun Hother]].
  split; [apply Hrun|].
  rewrite Hother; [reflexivity|discriminate].
Defined.

(** ** Every transaction has an owner, and no handler throws *)

Lemma get_in_keys (k : string) (m : Users.t) :
  In k (Users.keys m) -> Users.get k m <> None.
Proof.
  induction m as [|[k0 v0] m IH]; simpl; intros H.
  - contradiction.
  - destruct (String.eqb k k0) eqn:E; [discriminate|].
    apply IH. destruct H as [H|H]; [|exact H].
    subst. rewrite String.eqb_refl in E. discriminate.
Qed.

Lemma get_key_in (k : string) (u : User.t) (m : Users.t) :
  Users.get k m = Some u -> In k (Users.keys m).
Proof.
  intros H. apply get_some_key in H.
  apply in_map_iff. exists (k, u). now split.
Qed.

Lemma step_owners (st : AppState) (i : App.Intent) :
  users_wf (users st) -> owners_exist st -> owners_exist (App.step st i).
Proof.
  intros Hwf Ho. unfold owners_exist in *.
  rewrite (same_entry_keys _ _ (step_users_shape st i Hwf)).
  destruct (step_transactions_cases st i)
    as [E | [[news [E Hn]] | [txId [action [_ [_ E]]]]]]; rewrite E.
  - exact Ho.
  - apply (Permutation_Forall (Permutation_sym (sort_perm _))).
    apply Forall_app. split; [|exact Ho].
    eapply Forall_impl; [|exact Hn].
    intros t [k [u [Hg Hid]]]. simpl.
    rewrite Hid, (wf_get_id _ _ _ Hwf Hg). exact (get_key_in _ _ _ Hg).
  - unfold App.updatedTransactions. apply Forall_map.
    eapply Forall_impl; [|exact Ho].
    intros t Ht. simpl. destruct (String.eqb (Transaction.id t) txId); exact Ht.
Qed.

Lemma run_all_owners (l : list App.Intent) (st : AppState) :
  users_wf (users st) -> owners_exist st ->
  users_wf (users (App.run_all st l)) /\ owners_exist (App.run_all st l).
Proof.
  revert st. induction l as [|i l IH]; intros st Hwf Ho; simpl.
  - now split.
  - apply IH; [now apply step_wf|now apply step_owners].
Qed.

Lemma run_not_threw (st : AppState) (i : App.Intent) :
  users_wf (users st) -> owners_exist st -> App.run st i <> Threw.
Proof.
  intros Hwf Ho. destruct i; simpl.
  - destruct (App.currentUser st); discriminate.
  - destruct (App.currentUser st); discriminate.
  - repeat break_match; discriminate.
  - destruct (App.currentUser st) as [cu|] eqn:Hcu; [|discriminate].
    destruct (TransferModal.handleTransfer cu (users st) recipientIdentifier amount)
      as [m|[recipientId g]] eqn:HT; [discriminate|].
    apply TransferModal_inr in HT. destruct HT as [_ [r [Hf <-]]].
    apply find_some in Hf. destruct Hf as [Hin _].
    unfold App.handleTransfer.
    rewrite Hcu, (wf_get_value _ _ Hwf Hin). discriminate.
  - repeat break_match; discriminate.
  - repeat break_match; discriminate.
  - destruct (App.currentUser st); [|discriminate].
    destruct (Role_eqb _ _ && App.offered st txId); [|discriminate].
    unfold App.handleApproval.
    destruct (find _ (transactions st)) as [tx|] eqn:Hf; [|discriminate].
    apply find_some in Hf. destruct Hf as [Hin _].
    unfold owners_exist in Ho. rewrite Forall_forall in Ho.
    pose proof (get_in_keys _ _ (Ho _ Hin)) as Hg.
    unfold App.approvedUsers.
    destruct action, (Transaction.type tx); try discriminate;
      destruct (Users.get (Transaction.userId tx) (users st));
      try discriminate; contradiction.
  - repeat break_match; discriminate.
Qed.

(** X7. When the users object is well formed and every stored transaction
    is owned by one of its keys, as in the seeded state, both facts hold
    after any sequence of intents, and no intent ends in a [TypeError]:
    [handleTransfer] always finds its recipient and [handleApproval] the
    owner of the transaction. *)
Theorem owners_exist_and_nothing_throws (st : AppState) (l : list App.Intent)
    (i : App.Intent) :
  users_wf (users st) -> owners_exist st ->
  users_wf (users (App.run_all st l))
  /\ owners_exist (App.run_all st l)
  /\ App.run (App.run_all st l) i <> Threw.
Proof.
  intros Hwf Ho.
  destruct (run_all_owners l st Hwf Ho) as [Hwf' Ho'].
  split; [exact Hwf'|]. split; [exact Ho'|].
  now apply run_not_threw.
Qed.

Lemma initial_owners_exist : owners_exist App.initial.
Proof.
  unfold owners_exist. simpl. repeat constructor; simpl; tauto.
Qed.

Lemma owners_exist_and_nothing_throws_witness :
  App.run (App.run_all App.initial overdraw_trace)
          (App.resolveApproval "tx_5" approve) <> Threw.
Proof.
  exact (proj2 (proj2 (owners_exist_and_nothing_throws App.initial overdraw_trace
                         (App.resolveApproval "tx_5" approve)
                         INITIAL_USERS_wf initial_owners_exist))).
Defined.

(** ** The approvals table names the owner *)

Lemma find_values_get (m : Users.t) (k : string) :
  users_wf m ->
  find (fun u => String.eqb (User.id u) k) (Users.values m) = Users.get k m.
Proof.
  intros [_ Hid]. unfold Users.values.
  induction m as [|[k0 v0] m IH]; simpl; [reflexivity|].
  inversion Hid as [|? ? H0 Hid']; subst. simpl in H0. rewrite H0.
  rewrite (String.eqb_sym k0 k).
  destruct (String.eqb k k0); [reflexivity|now apply IH].
Qed.

(** X8. In a well-formed state whose transactions all have an owner, each
    row of the approvals table finds the record stored under the
    transaction's [userId], the one [handleApproval] credits or debits, and
    shows its name; it shows 'Unknown' only for an owner whose name is the
    empty string. *)
Theorem approval_rows_name_the_owner (st : AppState) (tx : Transaction.t) :
  users_wf (users st) -> owners_exist st ->
  In tx (AdminDashboard.pendingTransactions (transactions st)) ->
  exists u,
    Users.get (Transaction.userId tx) (users st) = Some u
    /\ User.id u = Transaction.userId tx
    /\ rowUser (Users.values (users st)) tx = Some u
    /\ rowName (Users.values (users st)) tx
       = (if String.eqb (User.name u) EmptyString then "Unknown" else User.name u)
    /\ (User.name u <> EmptyString ->
        rowName (Users.values (users st)) tx = User.name u).
Proof.
  intros Hwf Ho Hin.
  unfold AdminDashboard.pendingTransactions in Hin.
  apply filter_In in Hin. destruct Hin as [Hin _].
  unfold owners_exist in Ho. rewrite Forall_forall in Ho.
  pose proof (get_in_keys _ _ (Ho _ Hin)) as Hg.
  destruct (Users.get (Transaction.userId tx) (users st)) as [u|] eqn:E;
    [|contradiction].
  assert (Hrow : rowUser (Users.values (users st)) tx = Some u).
  { unfold rowUser. now rewrite (find_values_get _ _ Hwf). }
  exists u. split; [reflexivity|].
  split; [exact (wf_get_id _ _ _ Hwf E)|].
  split; [exact Hrow|].
  unfold rowName. rewrite Hrow.
  split; [reflexivity|].
  intros Hn. apply String.eqb_neq in Hn. now rewrite Hn.
Qed.

Lemma approval_rows_name_the_owner_witness :
  rowName (Users.values INITIAL_USERS)
          (Transaction.mk "tx_7" 1721811600000 withdrawal 2.0 None
                          None None pending "usr_2")
  = "Fatuma Roba"%string.
Proof.
  destruct (approval_rows_name_the_owner App.initial
              (Transaction.mk "tx_7" 1721811600000 withdrawal 2.0 None
                              None None pending "usr_2"))
    as [u [Hget [_ [_ [_ Hname]]]]].
  - exact INITIAL_USERS_wf.
  - exact initial_owners_exist.
  - simpl. tauto.
  - injection Hget as <-. apply Hname. discriminate.
Defined.

(** ** Purchases *)





(** ** The session *)

Lemma handleApproval_currentUserId st txId action :
  currentUserId (state_after st (App.handleApproval st txId action)) = currentUserId st.
Proof. unfold App.handleApproval. repeat break_match; reflexivity. Qed.

Lemma step_currentUserId (st : AppState) (i : App.Intent) :
  currentUserId (App.step st i) = currentUserId st
  \/ currentUserId (App.step st i) = None
  \/ exists userId u,
       Users.get userId (users st) = Some u
       /\ currentUserId (App.step st i) = Some userId.
Proof.
  unfold App.step.
  destruct i; simpl.
  - destruct (App.currentUser st); [now left|].
    unfold App.handleLogin. simpl.
    destruct (Users.get userId (users st)) as [u|] eqn:E; [|now left].
    right. right. now exists userId, u.
  - destruct (App.currentUser st); [right; now left|now left].
  - left. unfold App.handleNewTransaction. repeat break_match; reflexivity.
  - left. unfold App.handleTransfer. repeat break_match; reflexivity.
  - left. unfold App.handleWithdraw, App.handleNewTransaction.
    repeat break_match; reflexivity.
  - left. unfold App.handleLoan. repeat break_match; reflexivity.
  - left. repeat break_match; cbn [state_after]; try reflexivity.
    apply handleApproval_currentUserId.
  - left. repeat break_match; reflexivity.
Qed.

Lemma step_session (st : AppState) (i : App.Intent) :
  users_wf (users st) -> session_valid st -> session_valid (App.step st i).
Proof.
  intros Hwf Hs. unfold session_valid in *.
  rewrite (same_entry_keys _ _ (step_users_shape st i Hwf)).
  destruct (step_currentUserId st i) as [E | [E | [userId [u [Hg E]]]]]; rewrite E.
  - exact Hs.
  - exact I.
  - exact (get_key_in _ _ _ Hg).
Qed.

Lemma run_all_session (l : list App.Intent) (st : AppState) :
  users_wf (users st) -> session_valid st -> session_valid (App.run_all st l).
Proof.
  revert st. induction l as [|i l IH]; intros st Hwf Hs; simpl.
  - exact Hs.
  - apply IH; [now apply step_wf|now apply step_session].
Qed.

(** X10. The session never dangles. When the users object is well formed,
    has no empty key, and the stored session names one of its keys, the
    same holds after any sequence of intents, and then the login page is
    shown exactly when no session is stored: a stored session always
    resolves to a current user. *)
Theorem session_always_resolves (st : AppState) (l : list App.Intent) :
  users_wf (users st) ->
  ~ In EmptyString (Users.keys (users st)) ->
  session_valid st ->
  session_valid (App.run_all st l)
  /\ (App.currentUser (App.run_all st l) = None
      <-> currentUserId (App.run_all st l) = None).
Proof.
  intros Hwf Hne Hs.
  pose proof (run_all_session l st Hwf Hs) as Hs'.
  split; [exact Hs'|].
  unfold App.currentUser, session_valid in *.
  rewrite (same_entry_keys _ _ (run_all_users_shape l st Hwf)) in Hs'.
  destruct (currentUserId (App.run_all st l)) as [i|]; [|tauto].
  split; [|discriminate].
  intros H. exfalso.
  destruct (String.eqb i EmptyString) eqn:E.
  - apply String.eqb_eq in E. subst i. contradiction.
  - rewrite <- (same_entry_keys _ _ (run_all_users_shape l st Hwf)) in Hs'.
    exact (get_in_keys _ _ Hs' H).
Qed.

Lemma session_always_resolves_witness :
  App.currentUser (App.run_all App.initial overdraw_trace) = None
  <-> currentUserId (App.run_all App.initial overdraw_trace) = None.
Proof.
  apply (session_always_resolves App.initial overdraw_trace).
  - exact INITIAL_USERS_wf.
  - simpl. intuition discriminate.
  - exact I.
Defined.

(** ** More on the sort *)

Lemma insertBy_byDateDesc (x : Transaction.t) (l : list Transaction.t) :
  insertBy byDateDesc x l = insert x l.
Proof.
  induction l as [|y l IH]; simpl; [reflexivity|]. now rewrite IH.
Qed.

Lemma sortBy_byDateDesc (l : list Transaction.t) : sortBy byDateDesc l = sort l.
Proof.
  induction l as [|x l IH]; simpl; [reflexivity|].
  unfold sort, sortBy in *. now rewrite IH, insertBy_byDateDesc.
Qed.

Lemma insert_head (x : Transaction.t) (l : list Transaction.t) :
  Forall (fun t => (Transaction.date t <= Transaction.date x)%Z) l ->
  insert x l = x :: l.
Proof.
  intros H. destruct l as [|y l]; simpl; [reflexivity|].
  inversion H as [|? ? Hy _]; subst.
  assert (E : (0 <? byDateDesc x y)%Z = false).
  { apply Z.ltb_ge. unfold byDateDesc. lia. }
  now rewrite E.
Qed.

Lemma sort_sorted_same (l : list Transaction.t) :
  StronglySorted date_desc l -> sort l = l.
Proof.
  induction 1 as [|x l Hs IH Hx]; [reflexivity|].
  change (sort (x :: l)) with (insert x (sort l)).
  rewrite IH. apply insert_head. exact Hx.
Qed.

(** X11. When the stored transactions are sorted and the clock is not
    behind any stored date, [handleNewTransaction] puts the new record at
    the head and leaves the others in their places. *)
Theorem new_transaction_comes_first (st : AppState) (cu : User.t) (tx : TxInput)
    (now_id now_date : Z) :
  App.currentUser st = Some cu ->
  StronglySorted date_desc (transactions st) ->
  Forall (fun t => (Transaction.date t <= now_date)%Z) (transactions st) ->
  transactions (App.handleNewTransaction st tx now_id now_date)
  = App.newTransaction cu tx now_id now_date :: transactions st.
Proof.
  intros Hcu Hs Hd. unfold App.handleNewTransaction. rewrite Hcu.
  cbn [transactions].
  change (sort (App.newTransaction cu tx now_id now_date :: transactions st))
    with (insert (App.newTransaction cu tx now_id now_date) (sort (transactions st))).
  rewrite (sort_sorted_same _ Hs). apply insert_head. exact Hd.
Qed.

Lemma two_pending_sorted : StronglySorted date_desc (transactions two_pending).
Proof.
  unfold two_pending, date_desc. cbn [transactions].
  repeat constructor; cbn [Transaction.date]; lia.
Qed.

Lemma two_pending_dates :
  Forall (fun t => (Transaction.date t <= 1721900000000)%Z) (transactions two_pending).
Proof.
  unfold two_pending. cbn [transactions].
  repeat constructor; cbn [Transaction.date]; lia.
Qed.

Lemma new_transaction_comes_first_witness :
  transactions
    (App.handleNewTransaction two_pending
       (mkInput withdrawal 1 None pending) 1721900000000 1721900000000)
  = App.newTransaction usr_1 (mkInput withdrawal 1 None pending)
                       1721900000000 1721900000000
    :: transactions two_pending.
Proof.
  apply (new_transaction_comes_first two_pending usr_1).
  - reflexivity.
  - exact two_pending_sorted.
  - exact two_pending_dates.
Defined.

(** X12. The two records of a transfer, on a sorted list and with a clock
    that is not behind any stored date: when both dates are read in the
    same millisecond the outgoing record is stored first and the incoming
    one second; when the clock has advanced between the two reads the
    incoming record, being later, is stored first. *)
Theorem transfer_records_order (st : AppState) (sender recipient : User.t)
    (recipientId : string) (g : Q) (t1 t2 t3 t4 : Z) :
  App.currentUser st = Some sender ->
  Users.get recipientId (users st) = Some recipient ->
  StronglySorted date_desc (transactions st) ->
  Forall (fun t => (Transaction.date t <= t2)%Z) (transactions st) ->
  (t2 <= t4)%Z ->
  transactions (state_after st (App.handleTransfer st recipientId g t1 t2 t3 t4))
  = if (t2 <? t4)%Z
    then App.inTx sender recipient g t3 t4
         :: App.outTx sender recipient g t1 t2 :: transactions st
    else App.outTx sender recipient g t1 t2
         :: App.inTx sender recipient g t3 t4 :: transactions st.
Proof.
  intros Hcu Hg Hs Hd Hle. unfold App.handleTransfer. rewrite Hcu, Hg.
  cbn [state_after transactions].
  change (sort (App.outTx sender recipient g t1 t2
                :: App.inTx sender recipient g t3 t4 :: transactions st))
    with (insert (App.outTx sender recipient g t1 t2)
            (insert (App.inTx sender recipient g t3 t4) (sort (transactions st)))).
  rewrite (sort_sorted_same _ Hs).
  rewrite (insert_head (App.inTx sender recipient g t3 t4)).
  2:{ eapply Forall_impl; [|exact Hd]. intros t Ht.
      unfold App.inTx. cbn [Transaction.date] in *. lia. }
  cbn [insert]. unfold byDateDesc. cbn [Transaction.date App.outTx App.inTx].
  replace (0 <? t4 - t2)%Z with (t2 <? t4)%Z.
  2:{ destruct (t2 <? t4)%Z eqn:E; symmetry.
      - apply Z.ltb_lt in E. apply Z.ltb_lt. lia.
      - apply Z.ltb_ge in E. apply Z.ltb_ge. lia. }
  destruct (t2 <? t4)%Z; [|reflexivity].
  f_equal. apply insert_head. exact Hd.
Qed.

Lemma transfer_records_order_witness :
  transactions
    (state_after two_pending
       (App.handleTransfer two_pending "usr_2" 1 1721900000000 1721900000000
                           1721900000001 1721900000001))
  = App.inTx usr_1 usr_2 1 1721900000001 1721900000001
    :: App.outTx usr_1 usr_2 1 1721900000000 1721900000000
    :: transactions two_pending.
Proof.
  apply (transfer_records_order two_pending usr_1 usr_2 "usr_2" 1
           1721900000000 1721900000000 1721900000001 1721900000001).
  - reflexivity.
  - reflexivity.
  - exact two_pending_sorted.
  - exact two_pending_dates.
  - discriminate.
Defined.

Lemma insert_stable (d : Z) (x : Transaction.t) (l : list Transaction.t) :
  filter (fun t => (Transaction.date t =? d)%Z) (insert x l)
  = filter (fun t => (Transaction.date t =? d)%Z) (x :: l).
Proof.
  induction l as [|y l IH]; [reflexivity|].
  cbn [insert]. destruct (0 <? byDateDesc x y)%Z eqn:E; [|reflexivity].
  apply Z.ltb_lt in E. unfold byDateDesc in E.
  cbn [filter] in *. rewrite IH.
  destruct (Transaction.date x =? d)%Z eqn:Ex; [|reflexivity].
  apply Z.eqb_eq in Ex.
  assert (Ey : (Transaction.date y =? d)%Z = false) by (apply Z.eqb_neq; lia).
  now rewrite Ey.
Qed.

(** X13. The sort is stable: the transactions of one and the same date
    are stored in the order in which they were handed over. *)
Theorem sort_is_stable (d : Z) (l : list Transaction.t) :
  filter (fun t => (Transaction.date t =? d)%Z) (sort l)
  = filter (fun t => (Transaction.date t =? d)%Z) l.
Proof.
  induction l as [|x l IH]; [reflexivity|].
  change (sort (x :: l)) with (insert x (sort l)).
  rewrite insert_stable. cbn [filter]. now rewrite IH.
Qed.

(** ** Once sorted, always sorted; what the dashboard shows *)

Lemma updatedTransactions_sorted (l : list Transaction.t) txId action :
  StronglySorted date_desc l ->
  StronglySorted date_desc (App.updatedTransactions l txId action).
Proof.
  unfold App.updatedTransactions.
  induction 1 as [|x l Hs IH Hx]; simpl; constructor.
  - exact IH.
  - apply Forall_map. eapply Forall_impl; [|exact Hx].
    intros y Hy. unfold date_desc in *.
    destruct (String.eqb (Transaction.id x) txId),
             (String.eqb (Transaction.id y) txId); exact Hy.
Qed.

Lemma step_sorted (st : AppState) (i : App.Intent) :
  StronglySorted date_desc (transactions st) ->
  StronglySorted date_desc (transactions (App.step st i)).
Proof.
  intros Hs.
  destruct (step_transactions_cases st i)
    as [E | [[news [E _]] | [txId [action [_ [_ E]]]]]]; rewrite E.
  - exact Hs.
  - apply sort_sorted.
  - now apply updatedTransactions_sorted.
Qed.

(** X14. Once the stored transactions are sorted by date, latest first,
    every later state stores them sorted: appends sort again and
    resolutions keep the dates and the places. *)
Theorem sorted_once_sorted_forever (st : AppState) (l : list App.Intent) :
  StronglySorted date_desc (transactions st) ->
  StronglySorted date_desc (transactions (App.run_all st l)).
Proof.
  revert st. induction l as [|i l IH]; intros st Hs; simpl.
  - exact Hs.
  - apply IH. now apply step_sorted.
Qed.

Lemma sorted_once_sorted_forever_witness :
  StronglySorted date_desc
    (transactions
       (App.run_all two_pending
          [App.requestWithdrawal (Some 1) 1721900000000 1721900000000;
           App.logout; App.login "usr_3"; App.resolveApproval "tx_7" approve])).
Proof.
  apply sorted_once_sorted_forever. exact two_pending_sorted.
Defined.

Lemma filter_sorted (p : Transaction.t -> bool) (l : list Transaction.t) :
  StronglySorted date_desc l -> StronglySorted date_desc (filter p l).
Proof.
  induction 1 as [|x l Hs IH Hx]; simpl; [constructor|].
  destruct (p x); [|exact IH].
  constructor; [exact IH|].
  rewrite Forall_forall in *. intros y Hy.
  apply filter_In in Hy. now apply Hx.
Qed.

Lemma sorted_firstn_skipn (n : nat) (l : list Transaction.t) (a b : Transaction.t) :
  StronglySorted date_desc l ->
  In a (firstn n l) -> In b (skipn n l) -> date_desc a b.
Proof.
  revert l. induction n as [|n IH]; intros l Hs Ha Hb.
  - contradiction.
  - destruct l as [|x l]; [contradiction|].
    inversion Hs as [|? ? Hs' Hx]; subst. simpl in Ha, Hb.
    destruct Ha as [<-|Ha].
    + rewrite Forall_forall in Hx. apply Hx.
      rewrite <- (firstn_skipn n l). apply in_or_app. now right.
    + now apply (IH l).
Qed.

(** X15. When the stored transactions are sorted, the history of a user
    shows the latest of that user's transactions: no transaction left out
    by the limit is later than one that is shown. *)
Theorem history_shows_the_latest (st : AppState) (cu : User.t) (limit : nat)
    (a b : Transaction.t) :
  StronglySorted date_desc (transactions st) ->
  In a (TransactionHistory.shown (userTransactions st cu) limit) ->
  In b (TransactionHistory.hidden (userTransactions st cu) limit) ->
  (Transaction.date b <= Transaction.date a)%Z.
Proof.
  intros Hs Ha Hb.
  apply (sorted_firstn_skipn limit (userTransactions st cu)); try assumption.
  unfold userTransactions. now apply filter_sorted.
Qed.

Lemma history_shows_the_latest_witness :
  (1721732400000 <= 1721900000000)%Z.
Proof.
  apply (history_shows_the_latest
           (App.handleNewTransaction two_pending (mkInput withdrawal 1 None pending)
                                     1721900000000 1721900000000)
           usr_1 1
           (App.newTransaction usr_1 (mkInput withdrawal 1 None pending)
                               1721900000000 1721900000000)
           (Transaction.mk "tx_5" 1721732400000 conversion 0.5 (Some 3975.13)
                           None None pending "usr_1")).
  - unfold App.handleNewTransaction. cbn [App.currentUser two_pending currentUserId
      users transactions]. apply sort_sorted.
  - left. reflexivity.
  - left. reflexivity.
Defined.

(** ** The chart of the gold value *)

Lemma insertBy_perm cmp (x : Transaction.t) (l : list Transaction.t) :
  Permutation (insertBy cmp x l) (x :: l).
Proof.
  induction l as [|y l IH]; simpl.
  - apply Permutation_refl.
  - destruct (0 <? cmp x y)%Z.
    + apply perm_trans with (y :: x :: l); [now apply perm_skip|apply perm_swap].
    + apply Permutation_refl.
Qed.

Lemma sortBy_perm cmp (l : list Transaction.t) : Permutation (sortBy cmp l) l.
Proof.
  induction l as [|x l IH]; simpl.
  - constructor.
  - apply perm_trans with (x :: sortBy cmp l);
      [apply insertBy_perm|now apply perm_skip].
Qed.

Lemma netGold_perm (l l' : list Transaction.t) :
  Permutation l l' -> netGold l == netGold l'.
Proof.
  induction 1; simpl.
  - reflexivity.
  - rewrite IHPermutation. reflexivity.
  - lra.
  - now rewrite IHPermutation1.
Qed.

Lemma fold_plot_length p (l : list Transaction.t) acc :
  List.length (fst (fold_left (GoldValueChartCard.plot p) l acc))
  = (List.length (fst acc) + List.length l)%nat.
Proof.
  revert acc. induction l as [|t l IH]; intros acc; simpl.
  - lia.
  - rewrite IH. unfold GoldValueChartCard.plot. cbn [fst].
    rewrite length_app. simpl. lia.
Qed.

Lemma fold_plot_gold p (l : list Transaction.t) acc :
  snd (fold_left (GoldValueChartCard.plot p) l acc) == snd acc + netGold l.
Proof.
  revert acc. induction l as [|t l IH]; intros acc; simpl.
  - lra.
  - rewrite IH. unfold GoldValueChartCard.plot. cbn [snd]. lra.
Qed.

(** X16. The chart has no point when no transaction of the user is
    completed, and otherwise one point per completed transaction and one
    more for the present: it never has exactly one point, so 'Not enough
    data' is shown exactly when there is no completed transaction. *)
Theorem chart_points (transactions : list Transaction.t) (livePrice : Q) (now : Z) :
  let completedTxns :=
    filter (fun tx => Status_eqb (Transaction.status tx) completed) transactions in
  List.length (GoldValueChartCard.chartData transactions livePrice now)
  = match completedTxns with
    | [] => 0%nat
    | _ :: _ => S (List.length completedTxns)
    end
  /\ (GoldValueChartCard.notEnoughData
        (GoldValueChartCard.chartData transactions livePrice now) = true
      <-> completedTxns = []).
Proof.
  intros completedTxns.
  assert (L : List.length (GoldValueChartCard.chartData transactions livePrice now)
              = match completedTxns with
                | [] => 0%nat
                | _ :: _ => S (List.length completedTxns)
                end).
  { unfold GoldValueChartCard.chartData.
    destruct transactions as [|t0 ts] eqn:Et; [reflexivity|].
    fold completedTxns.
    pose proof (fold_plot_length livePrice (sortBy byDateAsc completedTxns) ([], 0))
      as Hl.
    destruct (fold_left (GoldValueChartCard.plot livePrice)
                (sortBy byDateAsc completedTxns) ([], 0)) as [dp g].
    cbn [fst List.length] in Hl.
    rewrite (Permutation_length (sortBy_perm byDateAsc completedTxns)) in Hl.
    destruct dp as [|d dp].
    - simpl in Hl. destruct completedTxns; [reflexivity|discriminate].
    - rewrite length_app. simpl in *.
      destruct completedTxns; [discriminate|]. simpl in *. lia. }
  split; [exact L|].
  unfold GoldValueChartCard.notEnoughData. rewrite L.
  destruct completedTxns; simpl.
  - tauto.
  - split; discriminate.
Qed.

(** X17. The value that the chart card reports is the net gold of the
    completed transactions, amounts of outgoing types counted negative,
    at the live price; pending and failed transactions, and the order of
    the transactions, do not enter it. *)
Theorem chart_latest_value (transactions : list Transaction.t) (livePrice : Q)
    (now : Z) :
  GoldValueChartCard.latestValue
    (GoldValueChartCard.chartData transactions livePrice now)
  == netGold (filter (fun tx => Status_eqb (Transaction.status tx) completed)
                     transactions)
     * livePrice.
Proof.
  unfold GoldValueChartCard.chartData, GoldValueChartCard.latestValue.
  destruct transactions as [|t0 ts] eqn:Et; [simpl; lra|].
  set (completedTxns :=
         filter (fun tx => Status_eqb (Transaction.status tx) completed) (t0 :: ts)).
  pose proof (fold_plot_length livePrice (sortBy byDateAsc completedTxns) ([], 0))
    as Hl.
  pose proof (fold_plot_gold livePrice (sortBy byDateAsc completedTxns) ([], 0))
    as Hg.
  destruct (fold_left (GoldValueChartCard.plot livePrice)
              (sortBy byDateAsc completedTxns) ([], 0)) as [dp g].
  cbn [fst snd List.length] in Hl, Hg.
  rewrite (Permutation_length (sortBy_perm byDateAsc completedTxns)) in Hl.
  rewrite (netGold_perm _ _ (sortBy_perm byDateAsc completedTxns)) in Hg.
  destruct dp as [|d dp].
  - simpl in Hl. destruct completedTxns; [simpl; lra|discriminate].
  - rewrite map_app. simpl map at 2. rewrite last_last. cbn [snd].
    rewrite Hg. lra.
Qed.

(** ** The drift of the price *)

Lemma priceTick_step (random p : Q) :
  0 <= random -> random < 1 -> 7800 <= p ->
  p - 5 <= App.priceTick random p /\ App.priceTick random p <= p + 5.
Proof.
  intros H0 H1 Hp. unfold App.priceTick.
  apply Q.max_case_strong.
  - intros x y Hxy [Ha Hb]. rewrite <- Hxy. now split.
  - intros Hm. split; lra.
  - intros Hm. split; lra.
Qed.

Lemma step_tick_price (st : AppState) (random : Q) :
  0 <= random -> random < 1 ->
  livePrice (App.step st (App.tick random)) = App.priceTick random (livePrice st).
Proof.
  intros H0 H1. unfold App.step, App.run.
  assert (B : Qle_bool 0 random && negb (Qle_bool 1 random) = true).
  { apply andb_true_iff. split.
    - now apply Qle_bool_iff.
    - apply negb_true_iff. now apply Qle_bool_false. }
  now rewrite B.
Qed.

(** X19. After [n] ticks the price has moved by at most [5 n] from where
    it started, in either direction, and is still at least 7800. *)
Theorem price_drift_is_bounded (st : AppState) (randoms : list Q) :
  7800 <= livePrice st ->
  Forall (fun random => 0 <= random /\ random < 1) randoms ->
  let p' := livePrice (App.run_all st (map App.tick randoms)) in
  let n := inject_Z (Z.of_nat (List.length randoms)) in
  7800 <= p' /\ livePrice st - 5 * n <= p' /\ p' <= livePrice st + 5 * n.
Proof.
  intros Hp Hr. revert st Hp.
  induction Hr as [|random randoms [H0 H1] Hr IH]; intros st Hp; simpl.
  - change (inject_Z 0) with 0. split; [exact Hp|]. split; lra.
  - pose proof (step_tick_price st random H0 H1) as E.
    pose proof (priceTick_step random (livePrice st) H0 H1 Hp) as [Hlo Hhi].
    pose proof (priceTick_floor random (livePrice st)) as Hfl.
    rewrite <- E in Hlo, Hhi, Hfl.
    destruct (IH (App.step st (App.tick random)) Hfl) as [Ha [Hb Hc]].
    assert (En : inject_Z (Z.pos (Pos.of_succ_nat (List.length randoms)))
                 == inject_Z (Z.of_nat (List.length randoms)) + 1).
    { rewrite Zpos_P_of_succ_nat. unfold Z.succ. rewrite inject_Z_plus. reflexivity. }
    rewrite En.
    split; [exact Ha|]. split; lra.
Qed.

Lemma price_drift_is_bounded_witness :
  livePrice (App.run_all App.initial [App.tick 0.25; App.tick 0.75])
  <= BASE_GOLD_PRICE_ETB + 5 * 2.
Proof.
  destruct (price_drift_is_bounded App.initial [0.25; 0.75]) as [_ [_ H]].
  - vm_compute. discriminate.
  - repeat constructor; vm_compute; congruence.
  - exact H.
Defined.

(** * The service worker *)

Module ServiceWorkerFacts.
Import ServiceWorker.

Lemma cache_match_ext (c : Cache) (q request : Request) :
  isGet q = isGet request ->
  withoutFragment (url q) = withoutFragment (url request) ->
  cache_match c q = cache_match c request.
Proof.
  intros Hg Hu. induction c as [|[u r] c IH]; simpl; [reflexivity|].
  unfold matchesEntry. now rewrite Hg, Hu, IH.
Qed.

Lemma cache_match_get (c : Cache) (q : Request) (r : Response) :
  cache_match c q = Some r -> isGet q = true.
Proof.
  induction c as [|[u r'] c IH]; simpl; intros H; [discriminate|].
  unfold matchesEntry in H.
  destruct (isGet q); [reflexivity|]. simpl in H. now apply IH.
Qed.

Lemma caches_match_ext (caches : CacheStorage) (q request : Request) :
  isGet q = isGet request ->
  withoutFragment (url q) = withoutFragment (url request) ->
  caches_match caches q = caches_match caches request.
Proof.
  intros Hg Hu. induction caches as [|[n c] caches IH]; simpl; [reflexivity|].
  now rewrite (cache_match_ext c q request Hg Hu), IH.
Qed.

Lemma caches_match_get (caches : CacheStorage) (q : Request) (r : Response) :
  caches_match caches q = Some r -> isGet q = true.
Proof.
  induction caches as [|[n c] caches IH]; simpl; intros H; [discriminate|].
  destruct (cache_match c q) eqn:E; [now apply (cache_match_get c q r0)|now apply IH].
Qed.

Lemma cache_match_app (c1 c2 : Cache) (q : Request) :
  cache_match (c1 ++ c2)%list q
  = match cache_match c1 q with
    | Some r => Some r
    | None => cache_match c2 q
    end.
Proof.
  induction c1 as [|[u r] c1 IH]; simpl; [reflexivity|].
  destruct (matchesEntry q u); [reflexivity|exact IH].
Qed.

(** Removing the entries of another resource changes no match. *)
Lemma cache_match_filter_other (c : Cache) (q : Request) (u : string) :
  withoutFragment (url q) <> withoutFragment u ->
  cache_match
    (filter (fun entry =>
               negb (String.eqb (withoutFragment (fst entry)) (withoutFragment u))) c) q
  = cache_match c q.
Proof.
  intros Hne. induction c as [|[u' r] c IH]; simpl; [reflexivity|].
  destruct (String.eqb (withoutFragment u') (withoutFragment u)) eqn:E; simpl.
  - apply String.eqb_eq in E. unfold matchesEntry. rewrite E.
    assert (E' : String.eqb (withoutFragment u) (withoutFragment (url q)) = false)
      by (apply String.eqb_neq; congruence).
    now rewrite E', andb_false_r.
  - now rewrite IH.
Qed.

(** A cache that does not match a request holds no entry that [put] would
    remove for it. *)
Lemma filter_unmatched (c : Cache) (request : Request) :
  isGet request = true ->
  cache_match c request = None ->
  filter (fun entry =>
            negb (String.eqb (withoutFragment (fst entry))
                             (withoutFragment (url request)))) c = c.
Proof.
  intros Hg. induction c as [|[u r] c IH]; simpl; intros Hm; [reflexivity|].
  unfold matchesEntry in Hm. rewrite Hg in Hm. cbn [andb] in Hm.
  destruct (String.eqb (withoutFragment u) (withoutFragment (url request)));
    [discriminate|].
  simpl. now rewrite IH.
Qed.

Lemma cache_match_put_same (c : Cache) (request : Request) (response : Response) :
  isGet request = true ->
  cache_match c request = None ->
  cache_match (put_entry (url request) response c) request = Some response.
Proof.
  intros Hg Hm. unfold put_entry.
  rewrite (filter_unmatched c request Hg Hm), cache_match_app, Hm.
  simpl. unfold matchesEntry. now rewrite Hg, String.eqb_refl.
Qed.

Lemma cache_match_put_other (c : Cache) (q : Request) (u : string)
    (response : Response) :
  withoutFragment (url q) <> withoutFragment u ->
  cache_match (put_entry u response c) q = cache_match c q.
Proof.
  intros Hne. unfold put_entry.
  rewrite cache_match_app, (cache_match_filter_other c q u Hne).
  destruct (cache_match c q); [reflexivity|].
  simpl. unfold matchesEntry.
  assert (E : String.eqb (withoutFragment u) (withoutFragment (url q)) = false)
    by (apply String.eqb_neq; congruence).
  now rewrite E, andb_false_r.
Qed.

Lemma caches_match_open_same (caches : CacheStorage) (name : string)
    (request : Request) (response : Response) :
  isGet request = true ->
  httpScheme (url request) = true ->
  caches_match caches request = None ->
  caches_match (caches_open name (cache_put request response) caches) request
  = Some response.
Proof.
  intros Hg Hs. unfold cache_put. rewrite Hg, Hs. cbn [andb].
  induction caches as [|[n c] caches IH]; simpl; intros Hm.
  - unfold matchesEntry. now rewrite Hg, String.eqb_refl.
  - destruct (cache_match c request) eqn:E; [discriminate|].
    destruct (String.eqb n name); simpl.
    + now rewrite cache_match_put_same.
    + rewrite E. now apply IH.
Qed.

Lemma caches_match_open_other (caches : CacheStorage) (name : string)
    (f : Cache -> Cache) (q : Request) :
  (forall c, cache_match (f c) q = cache_match c q) ->
  caches_match (caches_open name f caches) q = caches_match caches q.
Proof.
  intros Hf. induction caches as [|[n c] caches IH]; simpl.
  - now rewrite Hf.
  - destruct (String.eqb n name); simpl; [now rewrite Hf|now rewrite IH].
Qed.

(** X20. What the worker fetched once it serves from the cache from then
    on: after a GET request for an [http] or [https] URL that no cache
    matched has been answered by the network with status 200 and type
    [basic] or [cors], the same request, and the request for the same URL
    with another fragment, is answered with that very response, whatever
    the network does, and the caches stay as they are. A request of another
    scheme is answered by the network and nothing is stored for it. *)
Theorem fetched_once_served_from_cache (caches : CacheStorage) (request : Request)
    (networkResponse : Response) :
  String.prefix "https://esm.sh/" (url request) = false ->
  isGet request = true ->
  caches_match caches request = None ->
  notCacheable networkResponse = false ->
  exists caches',
    onFetch caches request (Some networkResponse) = Responded networkResponse caches'
    /\ (httpScheme (url request) = true ->
        forall q network,
          isGet q = true ->
          String.prefix "https://esm.sh/" (url q) = false ->
          withoutFragment (url q) = withoutFragment (url request) ->
          onFetch caches' q network = Responded networkResponse caches')
    /\ (httpScheme (url request) = false ->
        caches_match caches' request = None).
Proof.
  intros Hp Hg Hm Hn. unfold onFetch. rewrite Hp, Hm, Hn.
  eexists. split; [reflexivity|]. split.
  - intros Hs q network Hgq Hpq Hu. rewrite Hpq.
    rewrite (caches_match_ext _ q request) by congruence.
    now rewrite (caches_match_open_same caches CACHE_NAME request networkResponse
                   Hg Hs Hm).
  - intros Hs. rewrite caches_match_open_other; [exact Hm|].
    intros c. unfold cache_put. now rewrite Hs, andb_false_r.
Qed.

Lemma fetched_once_served_from_cache_witness :
  exists caches',
    onFetch [] (mkRequest "https://gold.example/index.css" "GET")
            (Some (mkResponse 200 "basic" "body { }"))
    = Responded (mkResponse 200 "basic" "body { }") caches'
    /\ onFetch caches' (mkRequest "https://gold.example/index.css#top" "GET") None
       = Responded (mkResponse 200 "basic" "body { }") caches'.
Proof.
  destruct (fetched_once_served_from_cache []
              (mkRequest "https://gold.example/index.css" "GET")
              (mkResponse 200 "basic" "body { }"))
    as [caches' [H1 [H2 _]]]; try reflexivity.
  exists caches'. split; [exact H1|].
  apply H2; reflexivity.
Defined.

(** X21. The fetch handler changes the cache storage only to store a
    response of the network with status 200 and type [basic] or [cors], for
    a request that no cache matched and whose URL is not under
    [https://esm.sh/]: error responses, opaque responses and cache hits
    leave the storage as it is. *)
Theorem only_good_responses_are_stored (caches : CacheStorage) (request : Request)
    (network : option Response) :
  caches_after caches (onFetch caches request network) <> caches ->
  exists networkResponse,
    network = Some networkResponse
    /\ onFetch caches request network
       = Responded networkResponse
           (caches_open CACHE_NAME (cache_put request networkResponse) caches)
    /\ status networkResponse = 200%Z
    /\ (type networkResponse = "basic"%string \/ type networkResponse = "cors"%string)
    /\ caches_match caches request = None
    /\ String.prefix "https://esm.sh/" (url request) = false.
Proof.
  unfold onFetch.
  destruct (String.prefix "https://esm.sh/" (url request)) eqn:Hp;
    [intros H; now contradiction H|].
  destruct (caches_match caches request) eqn:Hm; [intros H; now contradiction H|].
  destruct network as [nr|]; [|intros H; now contradiction H].
  destruct (notCacheable nr) eqn:Hn; [intros H; now contradiction H|].
  intros _. exists nr.
  unfold notCacheable in Hn. apply orb_false_iff in Hn. destruct Hn as [Hs Ht].
  apply negb_false_iff, Z.eqb_eq in Hs.
  repeat (split; [first [reflexivity | assumption]|]).
  split; [|now split].
  apply andb_false_iff in Ht.
  destruct Ht as [Ht|Ht]; apply negb_false_iff, String.eqb_eq in Ht; auto.
Qed.

Lemma only_good_responses_are_stored_witness :
  exists networkResponse,
    Some (mkResponse 200 "cors" "x") = Some networkResponse
    /\ status networkResponse = 200%Z.
Proof.
  destruct (only_good_responses_are_stored []
              (mkRequest "https://gold.example/index.js" "GET")
              (Some (mkResponse 200 "cors" "x")))
    as [nr [H1 [_ [H2 _]]]].
  - discriminate.
  - exists nr. now split.
Defined.

Lemma matched_url_differs (caches : CacheStorage) (q request : Request)
    (r : Response) :
  caches_match caches q = Some r ->
  caches_match caches request = None ->
  isGet request = true ->
  withoutFragment (url q) <> withoutFragment (url request).
Proof.
  intros Hq Hr Hg Hu.
  pose proof (caches_match_get _ _ _ Hq) as Hgq.
  rewrite (caches_match_ext caches q request) in Hq; congruence.
Qed.

(** X22. The fetch handler never replaces or drops what is cached: a
    request that some cache matched is matched with the same response after
    any fetch event. *)
Theorem cached_responses_are_kept (caches : CacheStorage) (request q : Request)
    (network : option Response) (r : Response) :
  caches_match caches q = Some r ->
  caches_match (caches_after caches (onFetch caches request network)) q = Some r.
Proof.
  intros Hq. unfold onFetch.
  destruct (String.prefix "https://esm.sh/" (url request)); [exact Hq|].
  destruct (caches_match caches request) eqn:Hm; [exact Hq|].
  destruct network as [nr|]; [|exact Hq].
  destruct (notCacheable nr); [exact Hq|].
  cbn [caches_after]. rewrite caches_match_open_other; [exact Hq|].
  intros c. unfold cache_put.
  destruct (isGet request) eqn:Hg; [|reflexivity].
  destruct (httpScheme (url request)); [|reflexivity]. cbn [andb].
  apply cache_match_put_other.
  exact (matched_url_differs caches q request r Hq Hm Hg).
Qed.

Lemma cached_responses_are_kept_witness :
  caches_match
    (caches_after
       [(CACHE_NAME, [("https://gold.example/"%string, mkResponse 200 "basic" "home")])]
       (onFetch
          [(CACHE_NAME, [("https://gold.example/"%string, mkResponse 200 "basic" "home")])]
          (mkRequest "https://gold.example/index.js" "GET")
          (Some (mkResponse 200 "basic" "js"))))
    (mkRequest "https://gold.example/" "GET")
  = Some (mkResponse 200 "basic" "home").
Proof.
  apply cached_responses_are_kept. reflexivity.
Defined.

(** X23. Activation leaves only caches named [CACHE_NAME], each with the
    entries it had, so that a response served afterwards comes from a cache
    of that name: what only an outdated cache holds is no longer served. *)
Theorem activation_keeps_the_current_cache_only (caches : CacheStorage) :
  Forall (fun entry => fst entry = CACHE_NAME) (onActivate caches)
  /\ (forall c, In (CACHE_NAME, c) caches -> In (CACHE_NAME, c) (onActivate caches))
  /\ (forall request r,
         caches_match (onActivate caches) request = Some r ->
         exists c, In (CACHE_NAME, c) caches /\ cache_match c request = Some r).
Proof.
  unfold onActivate. split; [|split].
  - apply Forall_forall. intros [n c] Hin.
    apply filter_In in Hin. destruct Hin as [_ H].
    simpl in H. rewrite orb_false_r in H.
    apply String.eqb_eq in H. simpl. congruence.
  - intros c Hin. apply filter_In. split; [exact Hin|].
    cbn [existsb fst]. apply orb_true_iff. left. apply String.eqb_refl.
  - intros request r. induction caches as [|[n c] caches IH]; simpl.
    + discriminate.
    + rewrite orb_false_r.
      destruct (String.eqb n CACHE_NAME) eqn:E; simpl.
      * apply String.eqb_eq in E. subst n.
        destruct (cache_match c request) eqn:Hc.
        -- intros H. injection H as <-. exists c. split; [now left|exact Hc].
        -- intros H. destruct (IH H) as [c' [Hin Hm]].
           exists c'. split; [now right|exact Hm].
      * intros H. destruct (IH H) as [c' [Hin Hm]].
        exists c'. split; [now right|exact Hm].
Qed.

End ServiceWorkerFacts.

(** * Withdrawal requests that are turned down *)

(** X24. A withdrawal request whose amount is not a number, is not
    positive, or exceeds the gold of the current user ends with an error
    message in the modal: no transaction is stored and no user changes. *)
Theorem invalid_withdrawal_rejected (st : AppState) (cu : User.t)
    (amount : option Q) (now_id now_date : Z) :
  App.currentUser st = Some cu ->
  match amount with
  | None => True
  | Some g => g <= 0 \/ User.goldBalance cu < g
  end ->
  (exists message,
      App.run st (App.requestWithdrawal amount now_id now_date) = Error message
      /\ message <> EmptyString)
  /\ App.step st (App.requestWithdrawal amount now_id now_date) = st.
Proof.
  intros Hcu H.
  assert (E : exists message,
             WithdrawModal.handleWithdraw cu amount = inl message
             /\ message <> EmptyString).
  { unfold WithdrawModal.handleWithdraw. destruct amount as [g|].
    - destruct (Qeq_bool g 0 || Qle_bool g 0) eqn:E1.
      { eexists. split; [reflexivity|discriminate]. }
      destruct (negb (Qle_bool g (User.goldBalance cu))) eqn:E2.
      { eexists. split; [reflexivity|discriminate]. }
      exfalso. apply orb_false_iff in E1. destruct E1 as [_ E1].
      apply Qle_bool_false in E1.
      apply negb_false_iff, Qle_bool_iff in E2.
      destruct H as [H|H]; lra.
    - eexists. split; [reflexivity|discriminate]. }
  destruct E as [message [E Hm]].
  unfold App.step, App.run. rewrite Hcu, E.
  split; [|reflexivity]. exists message. now split.
Qed.

Lemma invalid_withdrawal_rejected_witness :
  App.step (App.handleLogin App.initial "usr_1")
           (App.requestWithdrawal (Some 6) 1721900000000 1721900000000)
  = App.handleLogin App.initial "usr_1".
Proof.
  apply (invalid_withdrawal_rejected (App.handleLogin App.initial "usr_1") usr_1).
  - reflexivity.
  - right. reflexivity.
Defined.

(** * Transfers and loans in binary64 *)

Module Binary64Facts.
Import PrimFloat Binary64.
Local Open Scope float_scope.

(** ** Comparisons of doubles *)

Lemma SFcompare_antisym (x y : SpecFloat.spec_float) :
  SpecFloat.SFcompare y x
  = match SpecFloat.SFcompare x y with
    | Some c => Some (CompOpp c)
    | None => None
    end.
Proof.
  destruct x as [s|s| |s m e], y as [s'|s'| |s' m' e']; try reflexivity;
    try (destruct s; reflexivity); try (destruct s'; reflexivity);
    try (destruct s, s'; reflexivity).
  assert (Hm : Pos.compare_cont Eq m' m = CompOpp (Pos.compare_cont Eq m m')).
  { rewrite (Pos.compare_cont_antisym m m' Eq). reflexivity. }
  cbn. destruct s, s'; try reflexivity;
    rewrite (Z.compare_antisym e e'); destruct (e ?= e')%Z; cbn; try reflexivity;
    rewrite Hm; try reflexivity.
Qed.

(** [a <= b] excludes [a > b]. *)
Lemma leb_not_gt (a b : float) : (a <=? b) = true -> (b <? a) = false.
Proof.
  rewrite FloatAxioms.leb_spec, FloatAxioms.ltb_spec.
  unfold SpecFloat.SFleb, SpecFloat.SFltb.
  rewrite (SFcompare_antisym (FloatOps.Prim2SF a) (FloatOps.Prim2SF b)).
  destruct (SpecFloat.SFcompare (FloatOps.Prim2SF a) (FloatOps.Prim2SF b))
    as [[| |]|]; cbn; congruence.
Qed.

(** A number above zero is truthy and not [<= 0]. *)
Lemma positive_passes (g : float) :
  (0 <? g) = true -> falsy g || (g <=? 0) = false.
Proof.
  intros H. unfold falsy, is_nan.
  rewrite FloatAxioms.ltb_spec in H.
  rewrite (FloatAxioms.eqb_spec g 0), (FloatAxioms.eqb_spec g g),
    FloatAxioms.leb_spec.
  change (FloatOps.Prim2SF 0) with (SpecFloat.S754_zero false) in *.
  destruct (FloatOps.Prim2SF g) as [s|s| |s m e]; cbn in *;
    try discriminate; destruct s; cbn in *; try discriminate; try reflexivity.
  unfold SpecFloat.SFeqb, SpecFloat.SFcompare.
  rewrite Z.compare_refl, Pos.compare_cont_refl. reflexivity.
Qed.

(** ** The users object *)

Lemma b64_get_assign_same (k : string) (v : User.t) (m : Users.t) :
  Users.get k (Users.assign k v m) = Some v.
Proof.
  induction m as [|[k' v'] m IH]; simpl.
  - now rewrite String.eqb_refl.
  - destruct (String.eqb k k') eqn:E; simpl; rewrite E; auto.
Qed.

Lemma b64_get_assign_other (k k' : string) (v : User.t) (m : Users.t) :
  k' <> k -> Users.get k' (Users.assign k v m) = Users.get k' m.
Proof.
  intros Hne.
  induction m as [|[k0 v0] m IH]; simpl.
  - apply String.eqb_neq in Hne. now rewrite Hne.
  - destruct (String.eqb k k0) eqn:E; simpl.
    + apply String.eqb_eq in E. subst k0.
      apply String.eqb_neq in Hne. now rewrite Hne.
    + now rewrite IH.
Qed.

Lemma b64_wf_get_value (u : User.t) (m : Users.t) :
  users_wf m -> In u (Users.values m) -> Users.get (User.id u) m = Some u.
Proof.
  unfold users_wf, Users.values, Users.keys.
  induction m as [|[k v] m IH]; simpl; intros [Hnd Hid] Hin.
  - contradiction.
  - inversion Hnd as [|? ? Hk Hnd']; subst.
    inversion Hid as [|? ? Hv Hid']; subst. simpl in Hv.
    destruct Hin as [->|Hin].
    + rewrite Hv, String.eqb_refl. reflexivity.
    + destruct (String.eqb (User.id u) k) eqn:E.
      * exfalso. apply String.eqb_eq in E. apply Hk.
        apply in_map_iff in Hin. destruct Hin as [[k' u'] [Hu Hin]].
        simpl in Hu. subst u'.
        rewrite Forall_forall in Hid'. specialize (Hid' _ Hin). simpl in Hid'.
        apply in_map_iff. exists (k', u). split; [simpl; congruence|exact Hin].
      * apply IH; [split; assumption|exact Hin].
Qed.

Lemma b64_INITIAL_USERS_wf : users_wf INITIAL_USERS.
Proof.
  split.
  - simpl. repeat constructor; simpl; intuition discriminate.
  - repeat constructor.
Qed.

Lemma b64_insert_perm (x : Transaction.t) (l : list Transaction.t) :
  Permutation (insert x l) (x :: l).
Proof.
  induction l as [|y l IH]; simpl.
  - apply Permutation_refl.
  - destruct (0 <? byDateDesc x y)%Z.
    + apply perm_trans with (y :: x :: l); [now apply perm_skip|apply perm_swap].
    + apply Permutation_refl.
Qed.

Lemma b64_sort_perm (l : list Transaction.t) : Permutation (sort l) l.
Proof.
  induction l as [|x l IH]; simpl.
  - constructor.
  - apply perm_trans with (x :: sort l);
      [apply b64_insert_perm|now apply perm_skip].
Qed.

(** ** Transfers *)

(** C3, as the code has it. A transfer that passes the validation of the
    modal is applied; the sender's gold becomes the double
    [goldBalance - amountGrams], the recipient's the double
    [goldBalance + amountGrams], each rounded to nearest; sender and
    recipient are two users, and no other user changes. *)
Theorem transfer_debits_and_credits_rounded (st : AppState)
    (sender recipient : User.t) (recipientIdentifier : string) (g : float)
    (t1 t2 t3 t4 : Z) :
  users_wf (users st) ->
  App.currentUser st = Some sender ->
  recipientIdentifier <> EmptyString ->
  find (TransferModal.matches sender recipientIdentifier) (Users.values (users st))
  = Some recipient ->
  (0 <? g) = true -> (g <=? User.goldBalance sender) = true ->
  exists st' sender' recipient',
    App.run st (App.transfer recipientIdentifier g t1 t2 t3 t4) = Done st'
    /\ Users.get (User.id sender) (users st') = Some sender'
    /\ Users.get (User.id recipient) (users st') = Some recipient'
    /\ User.goldBalance sender' = User.goldBalance sender - g
    /\ User.goldBalance recipient' = User.goldBalance recipient + g
    /\ User.id sender <> User.id recipient
    /\ (forall k, k <> User.id sender -> k <> User.id recipient ->
                  Users.get k (users st') = Users.get k (users st)).
Proof.
  intros Hwf Hcu Hr Hf H0 Hle.
  pose proof (find_some _ _ Hf) as [Hin Hm].
  pose proof (b64_wf_get_value _ _ Hwf Hin) as Hget.
  assert (Hne : User.id sender <> User.id recipient).
  { unfold TransferModal.matches in Hm.
    apply andb_true_iff in Hm. destruct Hm as [_ Hm].
    apply negb_true_iff, String.eqb_neq in Hm. congruence. }
  unfold App.run. rewrite Hcu.
  unfold TransferModal.handleTransfer.
  apply String.eqb_neq in Hr. rewrite Hr. cbn [orb].
  rewrite (positive_passes g H0), (leb_not_gt _ _ Hle), Hf.
  unfold App.handleTransfer. rewrite Hcu, Hget.
  eexists. eexists. eexists.
  split; [reflexivity|]. cbn [users].
  split; [rewrite b64_get_assign_other by exact Hne; apply b64_get_assign_same|].
  split; [apply b64_get_assign_same|].
  split; [reflexivity|]. split; [reflexivity|]. split; [exact Hne|].
  intros k Hk1 Hk2. now rewrite !b64_get_assign_other.
Qed.

Lemma transfer_debits_and_credits_rounded_witness :
  exists st' sender' recipient',
    App.run first_tenth
            (App.transfer "+251900000000" 0.1 1721900000000 1721900000000
                          1721900000000 1721900000000) = Done st'
    /\ Users.get "usr_1" (users st') = Some sender'
    /\ Users.get "usr_3" (users st') = Some recipient'
    /\ User.goldBalance sender' = 5.65 - 0.1
    /\ User.goldBalance recipient' = 0.1 + 0.1.
Proof.
  destruct (transfer_debits_and_credits_rounded first_tenth
              (User.with_goldBalance usr_1 5.65) (User.with_goldBalance usr_3 0.1)
              "+251900000000" 0.1 1721900000000 1721900000000 1721900000000
              1721900000000)
    as [st' [s' [r' [Hrun [Hs [Hr [Hgs [Hgr _]]]]]]]].
  - split.
    + simpl. repeat constructor; simpl; intuition discriminate.
    + repeat constructor.
  - reflexivity.
  - discriminate.
  - reflexivity.
  - reflexivity.
  - reflexivity.
  - exists st', s', r'. repeat split; assumption.
Defined.

(** C3 as stated fails on the code. Abebe Bikila holds 5.65 g and the
    administrator 0.1 g, after a first transfer of 0.1 g; a second transfer
    of 0.1 g is valid and is applied, and leaves 5.550000000000001 g and
    0.2 g: their sum is 5.750000000000001, not the 5.75 of before. *)
Lemma transfer_sum_not_conserved :
  exists sender recipient st' sender' recipient',
    App.currentUser first_tenth = Some sender
    /\ find (TransferModal.matches sender "+251900000000")
            (Users.values (users first_tenth)) = Some recipient
    /\ (0 <? 0.1) = true
    /\ (0.1 <=? User.goldBalance sender) = true
    /\ App.run first_tenth
               (App.transfer "+251900000000" 0.1 1721900000001 1721900000001
                             1721900000001 1721900000001) = Done st'
    /\ Users.get (User.id sender) (users st') = Some sender'
    /\ Users.get (User.id recipient) (users st') = Some recipient'
    /\ (User.goldBalance sender' + User.goldBalance recipient'
        =? User.goldBalance sender + User.goldBalance recipient) = false
    /\ User.goldBalance sender + User.goldBalance recipient = 5.75
    /\ User.goldBalance sender' + User.goldBalance recipient' = 5.750000000000001.
Proof.
  do 5 eexists.
  split; [reflexivity|]. split; [reflexivity|].
  split; [reflexivity|]. split; [reflexivity|].
  split; [reflexivity|]. split; [reflexivity|].
  split; [reflexivity|]. split; [reflexivity|].
  split; reflexivity.
Qed.

(** ** Loans *)

Lemma commission_factor : (1 - LOAN_COMMISSION_RATE = 0.95)%float.
Proof. reflexivity. Qed.

(** C5, as the code has it. Every operation and comparison is the one the
    source performs on doubles. A loan request of [amountETB], above zero
    and at most the computed [goldBalance * livePrice * 0.5], is applied at
    once: the gold becomes [goldBalance - (amountETB / livePrice) / 0.5],
    the cash [etbBalance + amountETB * 0.95], no other user changes, and
    one completed loan transaction is stored whose grams are that
    collateral and whose ETB amount is the requested [amountETB]. A request
    that is [<= 0] or above the computed maximum ends with an error message
    and changes nothing. *)
Theorem loan_applied_with_computed_maximum (st : AppState) (cu : User.t)
    (amountETB : float) (now_id now_date : Z) :
  App.currentUser st = Some cu ->
  ((0 <? amountETB) = true ->
   (amountETB <=? User.goldBalance cu * livePrice st * 0.5) = true ->
   exists st' cu' l,
     App.run st (App.requestLoan amountETB now_id now_date) = Done st'
     /\ Users.get (User.id cu) (users st') = Some cu'
     /\ User.goldBalance cu' = User.goldBalance cu - (amountETB / livePrice st) / 0.5
     /\ User.etbBalance cu' = User.etbBalance cu + amountETB * 0.95
     /\ (forall k, k <> User.id cu -> Users.get k (users st') = Users.get k (users st))
     /\ Permutation (transactions st') (l :: transactions st)
     /\ Transaction.type l = loan
     /\ Transaction.status l = completed
     /\ Transaction.amountGrams l = (amountETB / livePrice st) / 0.5
     /\ Transaction.amountETB l = Some amountETB
     /\ Transaction.userId l = User.id cu)
  /\ ((amountETB <=? 0) = true
      \/ (User.goldBalance cu * livePrice st * 0.5 <? amountETB) = true ->
      (exists message,
          App.run st (App.requestLoan amountETB now_id now_date) = Error message
          /\ message <> EmptyString)
      /\ App.step st (App.requestLoan amountETB now_id now_date) = st).
Proof.
  intros Hcu. split.
  - intros H0 Hle.
    unfold App.run. rewrite Hcu. unfold LoanSelfModal.handleLoan.
    rewrite (positive_passes _ H0).
    unfold LoanSelfModal.maxLoanableETB.
    change LOAN_TO_VALUE_RATIO with 0.5.
    rewrite (leb_not_gt _ _ Hle).
    unfold App.handleLoan. rewrite Hcu.
    eexists. eexists. eexists.
    split; [reflexivity|]. cbn [users transactions].
    split; [apply b64_get_assign_same|].
    split; [reflexivity|].
    split; [cbn [User.etbBalance User.with_balances]; now rewrite commission_factor|].
    split; [intros k Hk; now apply b64_get_assign_other|].
    split.
    { exact (b64_sort_perm (_ :: transactions st)). }
    repeat (split; [reflexivity|]). reflexivity.
  - intros H.
    assert (E : exists message,
               LoanSelfModal.handleLoan cu (livePrice st) amountETB = inl message
               /\ message <> EmptyString).
    { unfold LoanSelfModal.handleLoan, LoanSelfModal.maxLoanableETB.
      change LOAN_TO_VALUE_RATIO with 0.5.
      destruct (falsy amountETB || (amountETB <=? 0)) eqn:E1.
      { eexists. split; [reflexivity|discriminate]. }
      destruct (User.goldBalance cu * livePrice st * 0.5 <? amountETB) eqn:E2.
      { eexists. split; [reflexivity|discriminate]. }
      exfalso. apply orb_false_iff in E1. destruct E1 as [_ E1].
      destruct H as [H|H]; congruence. }
    destruct E as [message [E Hm]].
    unfold App.step, App.run. rewrite Hcu, E.
    split; [|reflexivity]. exists message. now split.
Qed.

Lemma loan_applied_with_computed_maximum_witness :
  exists st' cu',
    App.run (App.handleLogin App.initial "usr_2")
            (App.requestLoan 20000 1721900000000 1721900000001) = Done st'
    /\ Users.get "usr_2" (users st') = Some cu'
    /\ User.goldBalance cu' = 12.25 - (20000 / 7950.25) / 0.5
    /\ User.etbBalance cu' = 5500 + 20000 * 0.95.
Proof.
  destruct (loan_applied_with_computed_maximum (App.handleLogin App.initial "usr_2")
              usr_2 20000 1721900000000 1721900000001 eq_refl) as [Hok _].
  destruct Hok as [st' [cu' [l [Hrun [Hget [Hg [He _]]]]]]].
  - reflexivity.
  - reflexivity.
  - exists st', cu'. repeat split; assumption.
Defined.

(** The loan arithmetic of the specification: 10 g of gold at 8000 ETB/g
    and a loan of 20000 ETB leave 5 g and add 19000 ETB. *)
Example loan_arithmetic_example :
  let u := User.mk "u" "U" "+1" "u@example.com" user 10 0 0 "R" "2024-01-01" in
  let st := mkState [("u"%string, u)] [] (Some "u"%string) 8000 in
  LoanSelfModal.maxLoanableETB u 8000 = 40000
  /\ exists st' u',
       App.run st (App.requestLoan 20000 1 1) = Done st'
       /\ Users.get "u" (users st') = Some u'
       /\ User.goldBalance u' = 5
       /\ User.etbBalance u' = 19000.
Proof.
  split; [reflexivity|].
  eexists. eexists. split; [reflexivity|]. split; [reflexivity|].
  split; reflexivity.
Qed.

(** C5 as stated fails on the code. Abebe Bikila holds 5.75 g and the price
    has moved once, to 7953.860088608533. The amount 22867.347754749535 is
    the double to which [5.75 * price * 0.5] rounds; it is above the exact
    product, so it is a request above the maximum, and yet it is not turned
    down: the loan is applied, and the collateral of 5.750000000000001 g
    leaves the gold below zero. *)
Lemma loan_above_exact_maximum_accepted :
  exists cu gold price amount st' cu',
    App.currentUser after_one_tick = Some cu
    /\ livePrice after_one_tick = 7953.860088608533
    /\ exact (User.goldBalance cu) = Some gold
    /\ exact (livePrice after_one_tick) = Some price
    /\ exact 22867.347754749535 = Some amount
    /\ (gold * price * (1 # 2) < amount)%Q
    /\ App.run after_one_tick
               (App.requestLoan 22867.347754749535 1721900000000 1721900000000)
       = Done st'
    /\ Users.get "usr_1" (users st') = Some cu'
    /\ User.goldBalance cu' = 5.75 - 5.750000000000001
    /\ (User.goldBalance cu' <? 0) = true.
Proof.
  do 6 eexists.
  split; [reflexivity|]. split; [reflexivity|].
  split; [vm_compute; reflexivity|]. split; [vm_compute; reflexivity|].
  split; [vm_compute; reflexivity|].
  split; [vm_compute; reflexivity|].
  split; [reflexivity|]. split; [reflexivity|].
  split; reflexivity.
Qed.

(** ** Transfers that are turned down *)

(** X25. In doubles: a transfer whose amount is [NaN], is [<= 0], or is
    above the sender's gold ends with an error message in the modal,
    whatever the identifier; nothing is stored and no user changes. *)
Theorem transfer_turned_down_in_doubles (st : AppState) (cu : User.t)
    (recipientIdentifier : string) (g : float) (t1 t2 t3 t4 : Z) :
  App.currentUser st = Some cu ->
  is_nan g = true \/ (g <=? 0) = true \/ (User.goldBalance cu <? g) = true ->
  (exists message,
      App.run st (App.transfer recipientIdentifier g t1 t2 t3 t4) = Error message
      /\ message <> EmptyString)
  /\ App.step st (App.transfer recipientIdentifier g t1 t2 t3 t4) = st.
Proof.
  intros Hcu H.
  assert (E : exists message,
             TransferModal.handleTransfer cu (users st) recipientIdentifier g
             = inl message
             /\ message <> EmptyString).
  { unfold TransferModal.handleTransfer.
    destruct (String.eqb recipientIdentifier EmptyString || falsy g || (g <=? 0))
      eqn:E1.
    { eexists. split; [reflexivity|discriminate]. }
    destruct (User.goldBalance cu <? g) eqn:E2.
    { eexists. split; [reflexivity|discriminate]. }
    exfalso.
    apply orb_false_iff in E1. destruct E1 as [E1 E3].
    apply orb_false_iff in E1. destruct E1 as [_ E1].
    unfold falsy in E1. apply orb_false_iff in E1. destruct E1 as [E1 _].
    destruct H as [H|[H|H]]; congruence. }
  destruct E as [message [E Hm]].
  unfold App.step, App.run. rewrite Hcu, E.
  split; [|reflexivity]. exists message. now split.
Qed.

Lemma transfer_turned_down_in_doubles_witness :
  App.step (App.handleLogin App.initial "usr_1")
           (App.transfer "fatuma@example.com" nan 1721900000000 1721900000000
                         1721900000000 1721900000000)
  = App.handleLogin App.initial "usr_1".
Proof.
  apply (transfer_turned_down_in_doubles (App.handleLogin App.initial "usr_1") usr_1).
  - reflexivity.
  - left. reflexivity.
Defined.

(** ** The price feed *)

(** [a < b] implies [a <= b]. *)
Lemma ltb_leb (a b : float) : (a <? b) = true -> (a <=? b) = true.
Proof.
  rewrite FloatAxioms.leb_spec, FloatAxioms.ltb_spec.
  unfold SpecFloat.SFleb, SpecFloat.SFltb.
  destruct (SpecFloat.SFcompare (FloatOps.Prim2SF a) (FloatOps.Prim2SF b))
    as [[| |]|]; cbn; congruence.
Qed.

(** X26. In doubles: one tick of the price moves it to
    [p + (random - 0.5) * 10], or to 7800 when that is not above 7800; the
    new price is at least 7800 unless the moved price is [NaN], and then it
    is [NaN]. *)
Theorem price_tick_in_doubles (random p : float) :
  let moved := p + (random - 0.5) * 10 in
  (is_nan moved = true -> App.priceTick random p = nan)
  /\ (is_nan moved = false ->
      (7800 <=? App.priceTick random p) = true
      /\ ((7800 <? moved) = true -> App.priceTick random p = moved)
      /\ ((7800 <? moved) = false -> App.priceTick random p = 7800)).
Proof.
  intros moved. unfold App.priceTick, Math_max. fold moved.
  change (is_nan 7800) with false. cbn [orb].
  split.
  - intros ->. reflexivity.
  - intros ->.
    destruct (7800 <? moved) eqn:E.
    + split; [now apply ltb_leb|]. split; [reflexivity|discriminate].
    + split; [reflexivity|]. split; [discriminate|reflexivity].
Qed.

Lemma price_tick_in_doubles_witness :
  App.priceTick 0.8610088608533205 7950.25 = 7953.860088608533
  /\ App.priceTick 0 7801 = 7800.
Proof.
  destruct (price_tick_in_doubles 0.8610088608533205 7950.25) as [_ H1].
  destruct (price_tick_in_doubles 0 7801) as [_ H2].
  split.
  - destruct H1 as [_ [H _]]; [reflexivity|]. rewrite H; reflexivity.
  - destruct H2 as [_ [_ H]]; [reflexivity|]. apply H. reflexivity.
Defined.

End Binary64Facts.
